(** * CurveAdm: the format-chunkfile-pool task and the target script

    A shallow embedding of [internal/task/task/bs/format.go] (package [bs])
    and of the shell script held by [scripts.TARGET], with the properties
    that the specification states about them.

    Go strings are [string] (sequences of bytes), Go's [error] is
    [option error] ([None] is [nil]), pointers to the variables that the
    steps of one task share are names ([Ref], [BoolRef]) into a record of
    variables ([Vars]), and everything that happens on the remote host goes
    through one function of the channel ([exec]), about which nothing is
    assumed. *)

From Stdlib Require Import Ascii String.
From stdpp Require Import gmap strings list pretty.

(** ** Go's [strings], [unicode/utf8] and [regexp], as far as the code uses them *)

Module GoStrings.

(** [strings.Contains(s, substr)]: some suffix of [s] starts with [substr]. *)
Fixpoint Contains (s substr : string) : bool :=
  if String.prefix substr s then true
  else match s with
       | EmptyString => false
       | String _ s' => Contains s' substr
       end.

(** [len(s)]: the number of bytes. *)
Definition len (s : string) : nat := String.length s.

Definition bytes (s : string) : list N :=
  map Ascii.N_of_ascii (String.list_ascii_of_string s).

Definition RuneError : N := 0xFFFD.

Definition between (lo hi b : N) : bool := ((lo <=? b) && (b <=? hi))%N.

Definition cont (b : N) : N := N.land b 0x3F.

(** [utf8.DecodeRuneInString]: the first rune of a byte sequence and its
    width; a byte that starts no valid encoding is [RuneError] of width 1. *)
Definition DecodeRune (s : list N) : N * nat :=
  match s with
  | [] => (RuneError, 0)
  | s0 :: t =>
    if (s0 <? 0x80)%N then (s0, 1)
    else if ((s0 <? 0xC2) || (0xF4 <? s0))%N then (RuneError, 1)
    else
      let sz := if (s0 <? 0xE0)%N then 2 else if (s0 <? 0xF0)%N then 3 else 4 in
      let accept : N * N :=
        (if s0 =? 0xE0 then (0xA0, 0xBF)
         else if s0 =? 0xED then (0x80, 0x9F)
         else if s0 =? 0xF0 then (0x90, 0xBF)
         else if s0 =? 0xF4 then (0x80, 0x8F)
         else (0x80, 0xBF))%N in
      match t with
      | [] => (RuneError, 1)
      | s1 :: t1 =>
        if negb (between accept.1 accept.2 s1) then (RuneError, 1)
        else if (sz =? 2)%nat
        then (N.lor (N.shiftl (N.land s0 0x1F) 6) (cont s1), 2)
        else match t1 with
        | [] => (RuneError, 1)
        | s2 :: t2 =>
          if negb (between 0x80 0xBF s2) then (RuneError, 1)
          else if (sz =? 3)%nat
          then (N.lor (N.shiftl (N.land s0 0x0F) 12)
                  (N.lor (N.shiftl (cont s1) 6) (cont s2)), 3)
          else match t2 with
          | [] => (RuneError, 1)
          | s3 :: _ =>
            if negb (between 0x80 0xBF s3) then (RuneError, 1)
            else (N.lor (N.shiftl (N.land s0 0x07) 18)
                    (N.lor (N.shiftl (cont s1) 12)
                       (N.lor (N.shiftl (cont s2) 6) (cont s3))), 4)
          end
        end
      end
  end.

(** The runes of a byte sequence, as [regexp] steps through its input:
    [skip] counts the bytes still belonging to the rune decoded last. *)
Fixpoint runes_from (skip : nat) (s : list N) : list N :=
  match s with
  | [] => []
  | _ :: t =>
    match skip with
    | S k => runes_from k t
    | O => let (r, w) := DecodeRune s in r :: runes_from (pred w) t
    end
  end.

Definition runes (s : string) : list N := runes_from 0 (bytes s).

(** One-rune instructions of a compiled pattern: [.] (any rune but a line
    feed, no [s] flag being set) and a literal rune. *)
Inductive Inst : Type :=
  | AnyNotNL
  | Rune1 (r : N).

Definition inst_ok (i : Inst) (r : N) : bool :=
  match i with
  | AnyNotNL => negb (r =? 10)%N
  | Rune1 c => (r =? c)%N
  end.

Definition digit_of (c : ascii) : option nat :=
  let n := Ascii.nat_of_ascii c in
  if ((48 <=? n) && (n <=? 57))%nat then Some (n - 48) else None.

Definition flush (last : option Inst) (out : list Inst) : list Inst :=
  match last with
  | Some i => out ++ [i]
  | None => out
  end.

Definition is_meta (c : ascii) : bool :=
  bool_decide (c ∈ String.list_ascii_of_string "\*+?()[]|^}").

(** The patterns of the fragment [^ atom{n}* $], an atom being [.] or an
    ASCII character that is no operator: [last] is the atom read last, not
    yet emitted, and [rep] the count being read between braces.  Any other
    pattern is outside the fragment ([None]). *)
Fixpoint compile_from (p : string) (last : option Inst) (rep : option nat)
    (out : list Inst) : option (list Inst) :=
  match p with
  | EmptyString => None
  | String c rest =>
    match rep with
    | Some n =>
      if Ascii.eqb c "}"
      then match last with
           | Some i => compile_from rest None None (out ++ replicate n i)
           | None => None
           end
      else match digit_of c with
           | Some d => compile_from rest last (Some (10 * n + d)) out
           | None => None
           end
    | None =>
      if Ascii.eqb c "$"
      then match rest with
           | EmptyString => Some (flush last out)
           | _ => None
           end
      else if Ascii.eqb c "{"
      then match last with
           | Some _ => compile_from rest last (Some 0) out
           | None => None
           end
      else if Ascii.eqb c "."
      then compile_from rest (Some AnyNotNL) None (flush last out)
      else if is_meta c || (128 <=? Ascii.nat_of_ascii c)%nat then None
      else compile_from rest (Some (Rune1 (Ascii.N_of_ascii c))) None
             (flush last out)
    end
  end.

(** [regexp.MustCompile], on that fragment. *)
Definition Compile (p : string) : option (list Inst) :=
  match p with
  | String "^" rest => compile_from rest None None []
  | _ => None
  end.

(** A pattern anchored at both ends matches when its instructions consume
    the runes of the input one for one. *)
Fixpoint match_runes (prog : list Inst) (rs : list N) : bool :=
  match prog, rs with
  | [], [] => true
  | i :: prog', r :: rs' => inst_ok i r && match_runes prog' rs'
  | _, _ => false
  end.

(** [len(pattern.FindStringSubmatch(s)) > 0]: the pattern matches [s]. *)
Definition MatchString (pattern s : string) : bool :=
  match Compile pattern with
  | Some prog => match_runes prog (runes s)
  | None => false
  end.

(** [fmt.Sprintf] with the verb [%d]. *)
Definition Sprintf_d (n : Z) : string := pretty n.

End GoStrings.

Import GoStrings.

(** ** Errors *)

(** Modelled from the spec: the error catalog (package [errno]) and the
    sentinel [task.ERR_SKIP_TASK], which are not among the sources.  An
    error has a stable kind and a message part; [F] substitutes the
    contextual fields and keeps the kind (section 7). *)
Inductive ErrorKind : Type :=
  | SKIP_TASK
  | NOT_A_BLOCK_DEVICE
  | GET_DEVICE_UUID_FAILED
  | OTHER_KIND (code : N).

Record error : Type := mkError { kind : ErrorKind; clue : string }.

Definition ERR_SKIP_TASK : error := mkError SKIP_TASK EmptyString.
Definition ERR_NOT_A_BLOCK_DEVICE : error :=
  mkError NOT_A_BLOCK_DEVICE EmptyString.
Definition ERR_GET_DEVICE_UUID_FAILED : error :=
  mkError GET_DEVICE_UUID_FAILED EmptyString.

Definition F (e : error) (message : string) : error :=
  mkError (kind e) message.

#[global] Instance ErrorKind_eq_dec : EqDecision ErrorKind.
Proof. solve_decision. Defined.

#[global] Instance error_eq_dec : EqDecision error.
Proof. solve_decision. Defined.

(** ** Constants of package [bs] *)

Definition DEFAULT_CHUNKFILE_SIZE : Z := 16 * 1024 * 1024.
Definition DEFAULT_CHUNKFILE_HEADER_SIZE : Z := 4 * 1024.
Definition WARNING_EDIT : string := "GENERATED BY CURVEADM, DONT EDIT THIS".
Definition SIGNATURE_NOT_A_BLOCK_DEVICE : string := "not a block device".
Definition REEGX_DEVICE_UUID : string := "^.{8}-.{4}-.{4}-.{4}-.{12}$".

(** ** The variables that the steps of one task share

    The builder and the composite step hand pointers to their variables to
    the steps they create; a step reads or writes through the pointer when it
    is executed.  [Vars] holds those variables, a [Ref] is [&variable].  The
    field [uuid] of the struct [step2EditFSTab] is written through [&s.uuid]
    and is the variable [v_uuid]. *)
Record Vars : Type := mkVars {
  v_oldContainerId : string;
  v_containerId : string;
  v_oldUUID : string;
  v_formatScript : string;
  v_uuid : string;
  v_success : bool;
  v_express2del : string;
  v_express2add : string
}.

Inductive Ref : Type :=
  | Ref_oldContainerId
  | Ref_containerId
  | Ref_oldUUID
  | Ref_formatScript
  | Ref_uuid
  | Ref_express2del
  | Ref_express2add.

(** The only [bool] whose address is taken is [success]; it is read by
    [checkDeviceUUID] and handed to no step, so there is a [load_bool] and
    no store. *)
Inductive BoolRef : Type :=
  | Ref_success.

Definition load (r : Ref) (v : Vars) : string :=
  match r with
  | Ref_oldContainerId => v_oldContainerId v
  | Ref_containerId => v_containerId v
  | Ref_oldUUID => v_oldUUID v
  | Ref_formatScript => v_formatScript v
  | Ref_uuid => v_uuid v
  | Ref_express2del => v_express2del v
  | Ref_express2add => v_express2add v
  end.

Definition store (r : Ref) (x : string) (v : Vars) : Vars :=
  let (a, b, c, d, e, f, g, h) := v in
  match r with
  | Ref_oldContainerId => mkVars x b c d e f g h
  | Ref_containerId => mkVars a x c d e f g h
  | Ref_oldUUID => mkVars a b x d e f g h
  | Ref_formatScript => mkVars a b c x e f g h
  | Ref_uuid => mkVars a b c d x f g h
  | Ref_express2del => mkVars a b c d e f x h
  | Ref_express2add => mkVars a b c d e f g x
  end.

Definition load_bool (r : BoolRef) (v : Vars) : bool :=
  match r with
  | Ref_success => v_success v
  end.

(** [step.LambdaType]: the lambdas of this package ignore their context
    argument and work on the variables they captured. *)
Definition LambdaType : Type := Vars -> Vars * option error.

(** The struct [step2EditFSTab] without its field [uuid], which is the
    variable [v_uuid], and without [curveadm], from which the code takes the
    execution options and the Shared Store. *)
Record step2EditFSTab : Type := mkStep2EditFSTab {
  host : string;
  device : string;
  mountPoint : string;
  oldUUID : Ref;
  skipAdd : bool
}.

Definition skipFormat (containerId : Ref) : LambdaType :=
  fun vars =>
    if (0 <? len (load containerId vars))%nat
    then (vars, Some ERR_SKIP_TASK)
    else (vars, None).

Definition checkDeviceUUID (host device : string) (success : BoolRef)
    (uuid : Ref) : LambdaType :=
  fun vars =>
    if negb (load_bool success vars)
    then
      if Contains (load uuid vars) SIGNATURE_NOT_A_BLOCK_DEVICE
      then (vars, Some (F ERR_NOT_A_BLOCK_DEVICE
                          ("host=" +:+ host +:+ " device=" +:+ device)))
      else (vars, Some (F ERR_GET_DEVICE_UUID_FAILED
                          ("host=" +:+ host +:+ " device=" +:+ device
                           +:+ " uuid=" +:+ load uuid vars)))
    else
      if negb (MatchString REEGX_DEVICE_UUID (load uuid vars))
      then (vars, Some (F ERR_GET_DEVICE_UUID_FAILED
                          ("host=" +:+ host +:+ " device=" +:+ device
                           +:+ " uuid=" +:+ load uuid vars)))
      else (vars, None).

Definition expression (s : step2EditFSTab) (express2del express2add : Ref)
    : LambdaType :=
  fun vars =>
    let vars1 :=
      store express2del ("/UUID=" +:+ load (oldUUID s) vars +:+ "/d") vars in
    let vars2 :=
      store express2add
        ("$ a UUID=" +:+ load Ref_uuid vars1 +:+ "  " +:+ mountPoint s
         +:+ "  ext4  rw,errors=remount-ro  0  0  # " +:+ WARNING_EDIT) vars1 in
    (vars2, None).

(** ** The remote side *)

Record Volume : Type := mkVolume { HostPath : string; ContainerPath : string }.

(** What a Command Step asks of the host, its pointers dereferenced. *)
Inductive Command : Type :=
  | CmdCopyFile (source dest : string) (noClobber : bool)
  | CmdBlockId (device format matchTag : string)
  | CmdSed (files : list string) (expression : string) (inPlace : bool)
  | CmdListContainers (showAll : bool) (format : string) (quiet : bool)
      (filter : string)
  | CmdUmountFilesystem (directorys : list string)
      (ignoreUmounted ignoreNotFound : bool)
  | CmdCreateDirectory (paths : list string)
  | CmdCreateFilesystem (device : string)
  | CmdMountFilesystem (source directory : string)
  | CmdPullImage (image : string)
  | CmdCreateContainer (image command entrypoint name : string) (remove : bool)
      (volumes : list Volume)
  | CmdInstallFile (containerId containerDestPath content : string)
  | CmdStartContainer (containerId : string).

(** The answer of the host: what is written into the output slot of the
    step, if anything is, and the error of the operation. *)
Record Reply : Type := mkReply {
  reply_out : option string;
  reply_err : option error
}.

(** The remote-execution channel: any function from a command and the state
    of the host to the next state and a reply. *)
Class Channel (Host : Type) : Type :=
  exec : Command -> Host -> Host * Reply.

Inductive Event : Type :=
  | EvLock
  | EvUnlock
  | EvRemote (c : Command)
  | EvLambda.

Record Date : Type := mkDate { year : nat; month : nat; day : nat }.

(** The state a step runs in: the shared variables, the host, the lock of the
    Shared Store, the date of the clock, and a log of what was invoked. *)
Record Ctx (Host : Type) : Type := mkCtx {
  vars : Vars;
  remote : Host;
  trace : list Event;
  locked : bool;
  today : Date
}.

Arguments mkCtx {Host} _ _ _ _ _.
Arguments vars {Host} _.
Arguments remote {Host} _.
Arguments trace {Host} _.
Arguments locked {Host} _.
Arguments today {Host} _.

Fixpoint zeros (n : nat) : string :=
  match n with
  | O => EmptyString
  | S k => "0" +:+ zeros k
  end.

Definition pad0 (width : nat) (s : string) : string :=
  zeros (width - String.length s) +:+ s.

(** [t.Format("2006-01-02")]. *)
Definition Format_2006_01_02 (d : Date) : string :=
  pad0 4 (pretty (year d)) +:+ "-" +:+ pad0 2 (pretty (month d))
  +:+ "-" +:+ pad0 2 (pretty (day d)).

(** ** Steps *)

(** The structs of package [step] that [format.go] builds, with the fields
    it sets.  Every one of them also receives
    [ExecOptions: curveadm.ExecOptions()], the same value throughout, which is
    left out.  No struct is given a pointer to a [bool]. *)
Inductive Step : Type :=
  | CopyFile (Source Dest : string) (NoClobber : bool)
  | BlockId (Device Format MatchTag : string) (Out : Ref)
  | Lambda (Lambda : LambdaType)
  | Sed (Files : list string) (Expression : Ref) (InPlace : bool)
  | ListContainers (ShowAll : bool) (Format : string) (Quiet : bool)
      (Filter : string) (Out : Ref)
  | UmountFilesystem (Directorys : list string)
      (IgnoreUmounted IgnoreNotFound : bool)
  | CreateDirectory (Paths : list string)
  | CreateFilesystem (Device : string)
  | MountFilesystem (Source Directory : string)
  | PullImage (Image : string)
  | CreateContainer (Image Command Entrypoint Name : string) (Remove : bool)
      (Volumes : list Volume) (Out : Ref)
  | InstallFile (ContainerId : Ref) (ContainerDestPath : string) (Content : Ref)
  | StartContainer (ContainerId : Ref).

(** The interface [task.Step]. *)
Class task_Step (Host A : Type) : Type :=
  Execute : A -> Ctx Host -> Ctx Host * option error.

(** A value of the interface type: the two kinds of step of this package. *)
Inductive AnyStep : Type :=
  | of_step (s : Step)
  | of_step2EditFSTab (s : step2EditFSTab).

Inductive Outcome : Type :=
  | Succeeded
  | Skipped
  | Failed (e : error).

Record Layout : Type := mkLayout {
  ChunkfilePoolRootDir : string;
  ToolsBinDir : string;
  FormatBinaryPath : string;
  ChunkfilePoolDir : string;
  ChunkfilePoolMetaPath : string
}.

Record FormatConfig : Type := mkFormatConfig {
  GetHost : string;
  GetDevice : string;
  GetMountPoint : string;
  GetFormatPercent : Z;
  GetContainerImage : string
}.

(** What the package takes from collaborators that are not among the
    sources: the path [os.GetFSTabPath()], the digest [utils.MD5Sum], the
    layout [topology.GetCurveBSProjectLayout()], the script [scripts.FORMAT]
    and the host configuration with its [GetSSHConfig]. *)
Class Collaborators : Type := mkCollaborators {
  HostConfig : Type;
  SSHConfig : Type;
  GetSSHConfig : HostConfig -> SSHConfig;
  GetFSTabPath : string;
  MD5Sum : string -> string;
  GetCurveBSProjectLayout : Layout;
  FORMAT : string
}.

Section Engine.

Context {Host : Type} `{!Channel Host} `{!Collaborators}.

Definition log (e : Event) (ctx : Ctx Host) : Ctx Host :=
  mkCtx (vars ctx) (remote ctx) (trace ctx ++ [e]) (locked ctx) (today ctx).

Definition set_vars (v : Vars) (ctx : Ctx Host) : Ctx Host :=
  mkCtx v (remote ctx) (trace ctx) (locked ctx) (today ctx).

Definition set_remote (h : Host) (ctx : Ctx Host) : Ctx Host :=
  mkCtx (vars ctx) h (trace ctx) (locked ctx) (today ctx).

Definition set_locked (b : bool) (ctx : Ctx Host) : Ctx Host :=
  mkCtx (vars ctx) (remote ctx) (trace ctx) b (today ctx).

(** Modelled from the spec: the [Execute] of a Command Step of package
    [step], which is not among the sources.  It performs exactly one remote
    operation, writes the output slot it declares with what the operation
    produced, and returns the error of the operation (section 4.2). *)
Definition run_command (c : Command) (Out : option Ref) (ctx : Ctx Host)
    : Ctx Host * option error :=
  let '(h, reply) := exec c (remote ctx) in
  let v := match Out, reply_out reply with
           | Some r, Some x => store r x (vars ctx)
           | _, _ => vars ctx
           end in
  (set_vars v (set_remote h (log (EvRemote c) ctx)), reply_err reply).

(** Modelled from the spec: [step.Lambda.Execute] calls the lambda. *)
Definition run_lambda (f : LambdaType) (ctx : Ctx Host)
    : Ctx Host * option error :=
  let '(v, err) := f (vars ctx) in
  (set_vars v (log EvLambda ctx), err).

Definition Step_Execute (st : Step) (ctx : Ctx Host) : Ctx Host * option error :=
  match st with
  | CopyFile src dst nc => run_command (CmdCopyFile src dst nc) None ctx
  | BlockId dev fmt tag out => run_command (CmdBlockId dev fmt tag) (Some out) ctx
  | Lambda f => run_lambda f ctx
  | Sed files expr inplace =>
      run_command (CmdSed files (load expr (vars ctx)) inplace) None ctx
  | ListContainers all fmt quiet filter out =>
      run_command (CmdListContainers all fmt quiet filter) (Some out) ctx
  | UmountFilesystem dirs iu inf =>
      run_command (CmdUmountFilesystem dirs iu inf) None ctx
  | CreateDirectory paths => run_command (CmdCreateDirectory paths) None ctx
  | CreateFilesystem dev => run_command (CmdCreateFilesystem dev) None ctx
  | MountFilesystem src dir => run_command (CmdMountFilesystem src dir) None ctx
  | PullImage image => run_command (CmdPullImage image) None ctx
  | CreateContainer image cmd entry name rm vols out =>
      run_command (CmdCreateContainer image cmd entry name rm vols) (Some out) ctx
  | InstallFile cid path content =>
      run_command
        (CmdInstallFile (load cid (vars ctx)) path (load content (vars ctx)))
        None ctx
  | StartContainer cid =>
      run_command (CmdStartContainer (load cid (vars ctx))) None ctx
  end.

#[global] Instance Step_task_Step : task_Step Host Step := Step_Execute.

(** The loop [for _, step := range steps] with its early return. *)
Fixpoint run_steps {A : Type} `{!task_Step Host A} (steps : list A)
    (ctx : Ctx Host) : Ctx Host * option error :=
  match steps with
  | [] => (ctx, None)
  | step :: rest =>
    let '(ctx', err) := Execute step ctx in
    match err with
    | Some e => (ctx', Some e)
    | None => run_steps rest ctx'
    end
  end.

(** Modelled from the spec: [TX] of the Shared Store ([utils.SafeMap]), which
    is not among the sources.  It runs [fn] holding the single lock of the
    store and forwards its error unchanged (section 4.3).  Waiting for the
    lock is not modelled: the call is followed from the moment the lock is
    granted. *)
Definition TX (fn : Ctx Host -> Ctx Host * option error) (ctx : Ctx Host)
    : Ctx Host * option error :=
  let '(ctx', err) := fn (set_locked true (log EvLock ctx)) in
  (set_locked false (log EvUnlock ctx'), err).

(** The variables declared by [execute] start from their zero values. *)
Definition declare_locals (v : Vars) : Vars :=
  mkVars (v_oldContainerId v) (v_containerId v) (v_oldUUID v)
    (v_formatScript v) (v_uuid v) false EmptyString EmptyString.

(** The slice [steps] that [execute] has built when its loop starts. *)
Definition step2EditFSTab_steps (s : step2EditFSTab) (ctx : Ctx Host)
    : list Step :=
  let now := Format_2006_01_02 (today ctx) in
  [ CopyFile GetFSTabPath (GetFSTabPath +:+ "-" +:+ now +:+ ".backup") true;
    BlockId (device s) "value" "UUID" Ref_uuid;
    Lambda (checkDeviceUUID (host s) (device s) Ref_success Ref_uuid);
    Lambda (expression s Ref_express2del Ref_express2add) ]
  ++ (if (0 <? len (load (oldUUID s) (vars ctx)))%nat
      then [ Sed [GetFSTabPath] Ref_express2del true ]
      else [])
  ++ (if negb (skipAdd s)
      then [ Sed [GetFSTabPath] Ref_express2add true ]
      else []).

Definition step2EditFSTab_execute (s : step2EditFSTab) (ctx : Ctx Host)
    : Ctx Host * option error :=
  let ctx0 := set_vars (declare_locals (vars ctx)) ctx in
  run_steps (step2EditFSTab_steps s ctx0) ctx0.

Definition step2EditFSTab_Execute (s : step2EditFSTab) (ctx : Ctx Host)
    : Ctx Host * option error :=
  TX (fun c => step2EditFSTab_execute s c) ctx.

#[global] Instance step2EditFSTab_task_Step : task_Step Host step2EditFSTab :=
  step2EditFSTab_Execute.

Definition AnyStep_Execute (st : AnyStep) (ctx : Ctx Host)
    : Ctx Host * option error :=
  match st with
  | of_step s => Execute s ctx
  | of_step2EditFSTab s => Execute s ctx
  end.

#[global] Instance AnyStep_task_Step : task_Step Host AnyStep := AnyStep_Execute.

Definition device2ContainerName (device : string) : string :=
  "curvebs-format-" +:+ MD5Sum device.

(** ** Tasks *)

(** Modelled from the spec: the task of package [task], which is not among
    the sources: a name, a subtitle, the binding to a host and the steps in
    the order they were added (section 3). *)
Record Task : Type := mkTask {
  name : string;
  subname : string;
  sshConfig : SSHConfig;
  steps : list AnyStep
}.

(** Modelled from the spec: [task.NewTask] makes a task without steps. *)
Definition NewTask (name subname : string) (ssh : SSHConfig) : Task :=
  mkTask name subname ssh [].

(** Modelled from the spec: [AddStep] appends the step (section 4.1). *)
Definition AddStep (t : Task) (st : AnyStep) : Task :=
  mkTask (name t) (subname t) (sshConfig t) (steps t ++ [st]).

(** Modelled from the spec: [Task.Execute] runs the steps in order and stops
    at the first that does not continue; a skip ends the run without being
    a failure (section 4.1). *)
Definition Task_Execute (t : Task) (ctx : Ctx Host) : Ctx Host * Outcome :=
  let '(ctx', err) := run_steps (steps t) ctx in
  (ctx', match err with
         | None => Succeeded
         | Some e => match kind e with
                     | SKIP_TASK => Skipped
                     | _ => Failed e
                     end
         end).

(** [cli.CurveAdm], as far as the builder uses it: the lookup of a host. *)
Record CurveAdm : Type := mkCurveAdm {
  CurveAdm_GetHost : string -> HostConfig + error
}.

Definition NewFormatChunkfilePoolTask (curveadm : CurveAdm) (fc : FormatConfig)
    : option Task * option error :=
  let host := GetHost fc in
  match CurveAdm_GetHost curveadm host with
  | inr err => (None, Some err)
  | inl hc =>
    let device := GetDevice fc in
    let mountPoint := GetMountPoint fc in
    let usagePercent := GetFormatPercent fc in
    let subname :=
      "host=" +:+ GetHost fc +:+ " device=" +:+ device +:+ " mountPoint="
      +:+ mountPoint +:+ " usage=" +:+ Sprintf_d usagePercent +:+ "%" in
    let t := NewTask "Start Format Chunkfile Pool" subname (GetSSHConfig hc) in
    let containerName := device2ContainerName device in
    let layout := GetCurveBSProjectLayout in
    let chunkfilePoolRootDir := ChunkfilePoolRootDir layout in
    let formatScriptPath := ToolsBinDir layout +:+ "/format.sh" in
    let formatCommand :=
      formatScriptPath +:+ " " +:+ FormatBinaryPath layout +:+ " "
      +:+ Sprintf_d usagePercent +:+ " " +:+ Sprintf_d DEFAULT_CHUNKFILE_SIZE
      +:+ " " +:+ ChunkfilePoolDir layout +:+ " "
      +:+ ChunkfilePoolMetaPath layout in
    let t := AddStep t (of_step (ListContainers true "'{{.ID}}'" true
                          ("name=" +:+ containerName) Ref_oldContainerId)) in
    let t := AddStep t (of_step (Lambda (skipFormat Ref_oldContainerId))) in
    let t := AddStep t (of_step (BlockId device "value" "UUID" Ref_oldUUID)) in
    let t := AddStep t (of_step (UmountFilesystem [device] true true)) in
    let t := AddStep t (of_step (CreateDirectory [mountPoint])) in
    let t := AddStep t (of_step (CreateFilesystem device)) in
    let t := AddStep t (of_step (MountFilesystem device mountPoint)) in
    let t := AddStep t (of_step2EditFSTab
                          (mkStep2EditFSTab host device mountPoint Ref_oldUUID
                             false)) in
    let t := AddStep t (of_step (PullImage (GetContainerImage fc))) in
    let t := AddStep t (of_step (CreateContainer (GetContainerImage fc)
                          formatCommand "/bin/bash" containerName true
                          [mkVolume mountPoint chunkfilePoolRootDir]
                          Ref_containerId)) in
    let t := AddStep t (of_step (InstallFile Ref_containerId formatScriptPath
                          Ref_formatScript)) in
    let t := AddStep t (of_step (StartContainer Ref_containerId)) in
    (Some t, None)
  end.

(** The variables of the builder when it returns: the identifiers and the
    old UUID are empty, [formatScript] holds the script, and the field [uuid]
    of the composite step is empty. *)
Definition initial_vars : Vars :=
  mkVars EmptyString EmptyString EmptyString FORMAT EmptyString false
    EmptyString EmptyString.

End Engine.

(** ** A host with files *)

Module FsHost.

(** Modelled from the spec: what the commands of the configuration-file edit
    protocol do on the host, which is decided by [step.CopyFile], [step.Sed]
    and the tools they run, none of them among the sources.  A copy with
    no-clobber leaves an existing destination alone; the deletion expression
    [/RE/d] removes the lines that match [RE]; the insertion expression
    [$ a TEXT] appends [TEXT] after the last line (sections 4.2 and 4.4).
    A file is its list of lines; a file without lines has no last line, so
    nothing is appended to it.  The two expressions are modelled where sed
    reads them literally: [RE] not empty and made of [literal_char]s, which
    stand for themselves in a regular expression, [TEXT] made of
    [text_char]s, which the [a] command copies as they are, and not starting
    with a space.  What sed does with any other expression (a pattern with
    [.], [*] or a bracket, a slash inside [RE], a backslash in [TEXT]) is
    left to [other_sed], about which nothing is assumed.  Every other
    command leaves the files alone and is answered by [answer]. *)
Record t : Type := mk {
  files : gmap string (list string);
  answer : Command -> Reply;
  other_sed : list string -> string -> bool -> gmap string (list string)
              -> gmap string (list string) * Reply
}.

Definition failed : error := mkError (OTHER_KIND 1) EmptyString.

Definition ok : Reply := mkReply None None.

Fixpoint strip_prefix (p s : string) : option string :=
  match p, s with
  | EmptyString, _ => Some s
  | String a p', String b s' => if Ascii.eqb a b then strip_prefix p' s' else None
  | String _ _, EmptyString => None
  end.

Fixpoint strip_suffix (suffix s : string) : option string :=
  if String.eqb s suffix then Some EmptyString
  else match s with
       | EmptyString => None
       | String c s' => String c <$> strip_suffix suffix s'
       end.

Inductive SedScript : Type :=
  | SedDelete (re : string)
  | SedAppendLast (text : string).

Fixpoint all_chars (p : ascii -> bool) (s : string) : bool :=
  match s with
  | EmptyString => true
  | String c rest => p c && all_chars p rest
  end.

Definition between (lo hi : N) (c : ascii) : bool :=
  ((lo <=? N_of_ascii c) && (N_of_ascii c <=? hi))%N.

(** Letters, digits, the dash, the underscore and the equals sign. *)
Definition literal_char (c : ascii) : bool :=
  between 48 57 c || between 65 90 c || between 97 122 c
  || Ascii.eqb c "-" || Ascii.eqb c "_" || Ascii.eqb c "=".

(** Those, and the space, the slash, the comma, the dot, the colon and the
    number sign. *)
Definition text_char (c : ascii) : bool :=
  literal_char c || Ascii.eqb c " " || Ascii.eqb c "/" || Ascii.eqb c ","
  || Ascii.eqb c "." || Ascii.eqb c ":" || Ascii.eqb c "#".

Definition literal_re (re : string) : bool :=
  negb (String.eqb re EmptyString) && all_chars literal_char re.

Definition literal_text (text : string) : bool :=
  negb (String.prefix " " text) && negb (String.eqb text EmptyString)
  && all_chars text_char text.

Definition parse_sed (e : string) : option SedScript :=
  match strip_prefix "$ a " e with
  | Some text => if literal_text text then Some (SedAppendLast text) else None
  | None =>
    match strip_prefix "/" e with
    | Some r =>
      match strip_suffix "/d" r with
      | Some re => if literal_re re then Some (SedDelete re) else None
      | None => None
      end
    | None => None
    end
  end.

Definition sed_apply (sc : SedScript) (lines : list string) : list string :=
  match sc with
  | SedDelete re => filter (fun l => Contains l re = false) lines
  | SedAppendLast text =>
    match lines with
    | [] => []
    | _ => lines ++ [text]
    end
  end.

Definition with_files (m : gmap string (list string)) (h : t) : t :=
  mk m (answer h) (other_sed h).

Definition exec_fs (c : Command) (h : t) : t * Reply :=
  match c with
  | CmdCopyFile src dst noClobber =>
    match files h !! src with
    | None => (h, mkReply None (Some failed))
    | Some content =>
      if noClobber && bool_decide (is_Some (files h !! dst))
      then (h, ok)
      else (with_files (<[dst := content]> (files h)) h, ok)
    end
  | CmdSed fs e inPlace =>
    match parse_sed e with
    | None =>
      let '(m, reply) := other_sed h fs e inPlace (files h) in
      (with_files m h, reply)
    | Some sc =>
      let m := if inPlace
               then foldr (fun f m => alter (sed_apply sc) f m) (files h) fs
               else files h in
      (with_files m h,
       mkReply None
         (if forallb (fun f => bool_decide (is_Some (files h !! f))) fs
          then None else Some failed))
    end
  | _ => (h, answer h c)
  end.

#[global] Instance channel : Channel t := exec_fs.


End FsHost.

(** ** The target script *)

Module TargetScript.

(** The script [scripts.TARGET], called as [target USER VOLUME CREATE SIZE].
    The tools it runs are functions: [curve_ops_tool] gives the standard
    output and the exit status of the create command, [tgtadm_show] the exit
    status of [tgtadm --lld iscsi --mode target --op show --tid i], [md5sum]
    and [date] the digest and the year and month used in the target name.
    A function takes the arguments of the script as they were given; a call
    stands for the command line that the script writes for it.
    [test_words] is the exit status of [[ $g_create == "true" ]] for an
    argument that the shell does not hand to [[] as one word: the expansion
    is not quoted, so it is split into words and matched against file names
    first, and the result depends on the words and on the files. *)
Record Tools : Type := mkTools {
  curve_ops_tool : string -> string -> string -> string * nat;
  tgtadm_show : nat -> nat;
  md5sum : string -> string;
  date : string;
  test_words : string -> nat
}.

Inductive Call : Type :=
  | mkdir_p (path : string)
  | touch (path : string)
  | curve_ops_tool_create (userName fileName fileLength : string)
  | tgtadm_target_show (tid : nat)
  | tgtadm_target_new (tid : nat) (targetname : string)
  | tgtadm_logicalunit_new (tid : nat) (backing_store : string)
  | tgtadm_logicalunit_update (tid : nat) (params : string)
  | tgtadm_target_bind (tid : nat).

Inductive Result : Type :=
  | Exit (code : nat)
  | Registered (g_tid : nat).

(** [$(command)]: the standard output without NUL bytes and without the
    line feeds at its end. *)
Fixpoint strip_trailing_newlines (s : string) : string :=
  match s with
  | EmptyString => EmptyString
  | String c rest =>
    let r := strip_trailing_newlines rest in
    if Ascii.eqb c "010" && String.eqb r EmptyString
    then EmptyString
    else String c r
  end.

Fixpoint remove_nul (s : string) : string :=
  match s with
  | EmptyString => EmptyString
  | String c rest =>
    if Ascii.eqb c "000" then remove_nul rest else String c (remove_nul rest)
  end.

Definition command_substitution (stdout : string) : string :=
  strip_trailing_newlines (remove_nul stdout).

(** The loop [for ((i=1;;i++))]: the identifiers shown before the first one
    whose [show] fails, and that identifier; [None] when [fuel] iterations
    found none. *)
Fixpoint scan (show : nat -> nat) (fuel i : nat) : option (list Call * nat) :=
  match fuel with
  | O => None
  | S fuel' =>
    if (show i =? 0)%nat
    then match scan show fuel' (S i) with
         | Some (calls, tid) => Some (tgtadm_target_show i :: calls, tid)
         | None => None
         end
    else Some ([tgtadm_target_show i], i)
  end.

Definition TOLERATED : string := "CreateFile fail with errCode: 101".

Definition word_char (c : ascii) : bool :=
  let n := N_of_ascii c in
  ((48 <=? n) && (n <=? 57) || (65 <=? n) && (n <=? 90)
   || (97 <=? n) && (n <=? 122))%N
  || Ascii.eqb c "-" || Ascii.eqb c "_" || Ascii.eqb c ".".

Fixpoint word_chars (s : string) : bool :=
  match s with
  | EmptyString => true
  | String c rest => word_char c && word_chars rest
  end.

(** An argument that stays one word when it is expanded without quotes: not
    empty, and made of letters, digits, dashes, underscores and dots, so
    that it has no blank to split at and no pattern character. *)
Definition single_word (s : string) : bool :=
  negb (String.eqb s EmptyString) && word_chars s.

(** [[ $g_create == "true" ]].  With a single word [[] has three arguments
    and compares the first with [true]. *)
Definition create_requested (tools : Tools) (g_create : string) : bool :=
  if single_word g_create
  then String.eqb g_create "true"
  else (test_words tools g_create =? 0)%nat.

(** The script: the calls it makes, in order, and how it ends. *)
Definition TARGET (tools : Tools) (fuel : nat)
    (g_user g_volume g_create g_size : string) : option (list Call * Result) :=
  let g_image := "cbd:pool/" +:+ g_volume +:+ "_" +:+ g_user +:+ "_" in
  let g_image_md5 := md5sum tools g_image in
  let g_targetname :=
    "iqn." +:+ date tools +:+ ".com.opencurve:curve." +:+ g_image_md5 in
  let setup := [mkdir_p "/curvebs/nebd/data/lock"; touch "/etc/curve/curvetab"] in
  let register calls :=
    match scan (tgtadm_show tools) fuel 1 with
    | None => None
    | Some (shows, g_tid) =>
      Some (calls ++ shows ++
            [ tgtadm_target_new g_tid g_targetname;
              tgtadm_logicalunit_new g_tid g_image;
              tgtadm_logicalunit_update g_tid
                "vendor_id=NetEase,product_id=CurveVolume,product_rev=2.0";
              tgtadm_target_bind g_tid ],
            Registered g_tid)
    end in
  if create_requested tools g_create
  then
    let '(stdout, status) := curve_ops_tool tools g_user g_volume g_size in
    let output := command_substitution stdout in
    let calls := setup ++ [curve_ops_tool_create g_user g_volume g_size] in
    if negb (status =? 0)%nat && negb (String.eqb output TOLERATED)
    then Some (calls, Exit 1)
    else register calls
  else register setup.

End TargetScript.

(** ** Definitions used to state the properties *)

(** What the spec says of a sub-pipeline: the steps are invoked in order from
    the states [starts], the first one that fails ends the run with its own
    error, and a run that invokes every step ends without error. *)
Inductive Runs {Host A : Type} `{!task_Step Host A}
    : list A -> Ctx Host -> list (Ctx Host) -> Ctx Host -> option error -> Prop :=
  | Runs_nil (c : Ctx Host) : Runs [] c [] c None
  | Runs_next (st : A) (rest : list A) (c c1 c2 : Ctx Host)
      (starts : list (Ctx Host)) (err : option error) :
      Execute st c = (c1, None) ->
      Runs rest c1 starts c2 err ->
      Runs (st :: rest) c (c :: starts) c2 err
  | Runs_fail (st : A) (rest : list A) (c c1 : Ctx Host) (e : error) :
      Execute st c = (c1, Some e) ->
      Runs (st :: rest) c [c] c1 (Some e).

Definition is_hex (c : ascii) : bool :=
  let n := Ascii.nat_of_ascii c in
  ((48 <=? n) && (n <=? 57) || (97 <=? n) && (n <=? 102)
   || (65 <=? n) && (n <=? 70))%nat.

Fixpoint group (n : nat) (s : string) : option string :=
  match n, s with
  | O, _ => Some s
  | S k, String c rest => if is_hex c then group k rest else None
  | S _, EmptyString => None
  end.

Definition dash (s : option string) : option string :=
  match s with
  | Some (String "-" rest) => Some rest
  | _ => None
  end.

(** The canonical pattern in the words of the spec: groups of 8, 4, 4, 4 and
    12 hexadecimal digits separated by dashes. *)
Definition canonical_uuid (s : string) : bool :=
  match dash (group 8 s) with
  | Some s1 =>
    match dash (group 4 s1) with
    | Some s2 =>
      match dash (group 4 s2) with
      | Some s3 =>
        match dash (group 4 s3) with
        | Some s4 => bool_decide (group 12 s4 = Some EmptyString)
        | None => false
        end
      | None => false
      end
    | None => false
    end
  | None => false
  end.

Definition is_sed (e : Event) : bool :=
  match e with
  | EvRemote (CmdSed _ _ _) => true
  | _ => false
  end.

(** The kind of a step of a task, for reading off an order. *)
Inductive StepKind : Type :=
  | KListContainers | KLambda | KBlockId | KUmountFilesystem | KCreateDirectory
  | KCreateFilesystem | KMountFilesystem | KStep2EditFSTab | KPullImage
  | KCreateContainer | KInstallFile | KStartContainer | KCopyFile | KSed.

Definition step_kind (st : AnyStep) : StepKind :=
  match st with
  | of_step2EditFSTab _ => KStep2EditFSTab
  | of_step (CopyFile _ _ _) => KCopyFile
  | of_step (BlockId _ _ _ _) => KBlockId
  | of_step (Lambda _) => KLambda
  | of_step (Sed _ _ _) => KSed
  | of_step (ListContainers _ _ _ _ _) => KListContainers
  | of_step (UmountFilesystem _ _ _) => KUmountFilesystem
  | of_step (CreateDirectory _) => KCreateDirectory
  | of_step (CreateFilesystem _) => KCreateFilesystem
  | of_step (MountFilesystem _ _) => KMountFilesystem
  | of_step (PullImage _) => KPullImage
  | of_step (CreateContainer _ _ _ _ _ _ _) => KCreateContainer
  | of_step (InstallFile _ _ _) => KInstallFile
  | of_step (StartContainer _) => KStartContainer
  end.

(** The two commands that the composite step issues before it validates. *)
Definition backup_path `{!Collaborators} (d : Date) : string :=
  GetFSTabPath +:+ "-" +:+ Format_2006_01_02 d +:+ ".backup".

Definition backup_command `{!Collaborators} (d : Date) : Command :=
  CmdCopyFile GetFSTabPath (backup_path d) true.

Definition probe_command (s : step2EditFSTab) : Command :=
  CmdBlockId (device s) "value" "UUID".

(** A concrete deployment, used to run the definitions. *)
Module Demo.

#[export] Instance collaborators : Collaborators := {|
  HostConfig := string;
  SSHConfig := string;
  GetSSHConfig := fun hc => hc;
  GetFSTabPath := "/etc/fstab";
  MD5Sum := fun _ => "5bbf5a52328e7439ae6e719dfe712200";
  GetCurveBSProjectLayout :=
    mkLayout "/curvebs/chunkserver/data" "/curvebs/tools/sbin"
      "/curvebs/tools/sbin/curve_format" "/curvebs/chunkserver/data/chunkfilepool"
      "/curvebs/chunkserver/data/chunkfilepool.meta";
  FORMAT := "#!/usr/bin/env bash"
|}.

Definition fstab : list string :=
  ["/dev/sda1  /  ext4  defaults  0  1"].

(** A host whose probe answers [uuid] and whose container listing answers
    [container]; its sed refuses the expressions that are not modelled. *)
Definition host_with (uuid container : string) : FsHost.t :=
  FsHost.mk {[ "/etc/fstab" := fstab ]}
    (fun c => match c with
              | CmdBlockId _ _ _ => mkReply (Some uuid) None
              | CmdListContainers _ _ _ _ => mkReply (Some container) None
              | _ => mkReply None None
              end)
    (fun _ _ _ m => (m, mkReply None (Some FsHost.failed))).

Definition ctx_with (uuid container : string) : Ctx FsHost.t :=
  mkCtx initial_vars (host_with uuid container) [] false (mkDate 2021 12 27).

Definition curveadm : CurveAdm :=
  mkCurveAdm (fun h => if String.eqb h "node1"
                       then inl "root@10.0.0.1:22"
                       else inr (mkError (OTHER_KIND 2) h)).

Definition fc : FormatConfig :=
  mkFormatConfig "node1" "/dev/sdb" "/data/chunkserver0" 80
    "opencurvedocker/curvebs:v1.2".

(** The task that the builder returns for that configuration. *)
Definition task : Task :=
  match (NewFormatChunkfilePoolTask curveadm fc).1 with
  | Some t => t
  | None => NewTask EmptyString EmptyString EmptyString
  end.

Definition edit : step2EditFSTab :=
  mkStep2EditFSTab "node1" "/dev/sdb" "/data/chunkserver0" Ref_oldUUID false.

Definition good_uuid : string := "82511eb8-e4e3-4a50-a736-d584fbf533fa".
Definition odd_uuid : string := "zzzzzzzz-zzzz-zzzz-zzzz-zzzzzzzzzzzz".
Definition marker_output : string := "blkid: /dev/sdb: not a block device".

(** The state in which the composite step has validated [uuid], with
    [previous] as the UUID captured before. *)
Definition validated (uuid previous : string) (h : FsHost.t) : Ctx FsHost.t :=
  mkCtx (store Ref_oldUUID previous (store Ref_uuid uuid initial_vars)) h []
    true (mkDate 2021 12 27).

(** The sub-steps of the composite from the expression lambda on. *)
Definition editing (c : Ctx FsHost.t) : Ctx FsHost.t * option error :=
  run_steps (drop 3 (step2EditFSTab_steps edit c)) c.

(** The tools of the target script on a host where the create command
    prints [stdout] and ends with [status], the targets 1, 2 and 4 are
    bound, and [[] ends with status 2 on what is not a single word. *)
Definition tools (stdout : string) (status : nat) : TargetScript.Tools :=
  TargetScript.mkTools (fun _ _ _ => (stdout, status))
    (fun i => if bool_decide (i ∈ ({[1; 2; 4]} : gset nat)) then 0 else 1)
    (fun _ => "0cc175b9c0f1b6a831c399e269772661") "2022-02" (fun _ => 2).

End Demo.

(** ** Definitions used to state further properties *)

(** The positions of the dashes in a string of groups of 8, 4, 4, 4 and 12
    characters. *)
Definition dash_positions : list nat := [8; 13; 18; 23].

(** A sequence of 36 runes with a dash at each dash position and no line
    feed anywhere else. *)
Definition grouped_8_4_4_4_12 (rs : list N) : Prop :=
  length rs = 36 /\
  (forall i, i ∈ dash_positions -> rs !! i = Some 45%N) /\
  (forall i r, i ∉ dash_positions -> rs !! i = Some r -> r <> 10%N).

(** The commands of the third part of the format task: pull the image,
    create the container, install the script, start the container. *)
Definition is_container_command (e : Event) : bool :=
  match e with
  | EvRemote (CmdPullImage _) => true
  | EvRemote (CmdCreateContainer _ _ _ _ _ _) => true
  | EvRemote (CmdInstallFile _ _ _) => true
  | EvRemote (CmdStartContainer _) => true
  | _ => false
  end.

Definition is_container_step (st : Step) : bool :=
  match st with
  | PullImage _ => true
  | CreateContainer _ _ _ _ _ _ _ => true
  | InstallFile _ _ _ => true
  | StartContainer _ => true
  | _ => false
  end.

(** [n] line feeds. *)
Fixpoint newlines (n : nat) : string :=
  match n with
  | O => EmptyString
  | S k => String "010" (newlines k)
  end.

(** The calls by which the target script registers the target [tid]. *)
Definition registration (tools : TargetScript.Tools) (g_user g_volume : string)
    (tid : nat) : list TargetScript.Call :=
  let g_image := "cbd:pool/" +:+ g_volume +:+ "_" +:+ g_user +:+ "_" in
  [ TargetScript.tgtadm_target_new tid
      ("iqn." +:+ TargetScript.date tools +:+ ".com.opencurve:curve."
       +:+ TargetScript.md5sum tools g_image);
    TargetScript.tgtadm_logicalunit_new tid g_image;
    TargetScript.tgtadm_logicalunit_update tid
      "vendor_id=NetEase,product_id=CurveVolume,product_rev=2.0";
    TargetScript.tgtadm_target_bind tid ].

(** * Properties *)

Section Properties.

Context {Host : Type} `{!Channel Host} `{!Collaborators}.

(** The loop refines the sub-pipeline of the spec. *)
Lemma run_steps_Runs {A : Type} `{!task_Step Host A} (l : list A) :
  forall c : Ctx Host,
    exists starts, Runs l c starts (run_steps l c).1 (run_steps l c).2.
Proof.
  induction l as [|st rest IH]; intros c; simpl.
  - exists []. constructor.
  - destruct (Execute st c) as [c1 [e|]] eqn:Hst; simpl.
    + exists [c]. by apply Runs_fail.
    + destruct (IH c1) as [starts Hr]. exists (c :: starts).
      by eapply Runs_next.
Qed.

Lemma Runs_invoked {A : Type} `{!task_Step Host A} (l : list A)
    (c c' : Ctx Host) (starts : list (Ctx Host)) (err : option error) :
  Runs l c starts c' err ->
  length starts <= length l /\
  (err = None -> length starts = length l) /\
  (forall e, err = Some e ->
     exists st cl, l !! (length starts - 1) = Some st /\
       last starts = Some cl /\ Execute st cl = (c', Some e)).
Proof.
  induction 1 as [c|st rest c c1 c2 starts err Hst Hr IH|st rest c c1 e Hst].
  - simpl. split; [lia|]. split; [done|]. intros e He. discriminate.
  - destruct IH as (Hle & Hnone & Hsome). simpl. split; [lia|]. split.
    + intros He. by rewrite Hnone.
    + intros e He. destruct (Hsome e He) as (st' & cl & Hl & Hlast & Hex).
      exists st', cl. split_and!; [|by rewrite last_cons, Hlast|done].
      destruct starts as [|c0 starts']; [done|]. simpl in *.
      by rewrite Nat.sub_0_r in *.
  - simpl. split; [lia|]. split; [done|]. intros e' [= <-].
    exists st, c. done.
Qed.

Lemma run_command_locked (c : Command) (out : option Ref) (ctx : Ctx Host) :
  locked (run_command c out ctx).1 = locked ctx.
Proof. unfold run_command. by destruct (exec c (remote ctx)). Qed.

Lemma run_command_trace (c : Command) (out : option Ref) (ctx : Ctx Host) :
  trace (run_command c out ctx).1 = trace ctx ++ [EvRemote c].
Proof. unfold run_command. by destruct (exec c (remote ctx)). Qed.

Lemma Step_Execute_locked (st : Step) (ctx : Ctx Host) :
  locked (Step_Execute st ctx).1 = locked ctx.
Proof.
  destruct st as [| |f| | | | | | | | | |]; simpl;
    try apply run_command_locked.
  unfold run_lambda. by destruct (f (vars ctx)).
Qed.

Lemma Step_Execute_trace (st : Step) (ctx : Ctx Host) :
  exists ev, trace (Step_Execute st ctx).1 = trace ctx ++ [ev] /\
    ev <> EvLock /\ ev <> EvUnlock.
Proof.
  destruct st as [| |f| | | | | | | | | |]; simpl;
    try (eexists; split; [apply run_command_trace|done]).
  unfold run_lambda. destruct (f (vars ctx)). by exists EvLambda.
Qed.

Lemma Runs_steps_locked (l : list Step) (c c' : Ctx Host)
    (starts : list (Ctx Host)) (err : option error) :
  Runs l c starts c' err ->
  Forall (fun x => locked x = locked c) starts /\
  locked c' = locked c /\
  exists evs, trace c' = trace c ++ evs /\ (EvLock ∉ evs) /\
    (EvUnlock ∉ evs) /\ length evs = length starts.
Proof.
  induction 1 as [c|st rest c c1 c2 starts err Hst Hr IH|st rest c c1 e Hst].
  - split; [constructor|]. split; [done|]. exists []. rewrite app_nil_r.
    split_and!; [done|apply not_elem_of_nil|apply not_elem_of_nil|done].
  - destruct IH as (Hall & Hl & evs & Ht & Hn1 & Hn2 & Hlen).
    pose proof (Step_Execute_locked st c) as Hk.
    destruct (Step_Execute_trace st c) as (ev & Hev & Hne1 & Hne2).
    change (Step_Execute st c) with (Execute st c) in Hk, Hev.
    rewrite Hst in Hk, Hev. simpl in Hk, Hev.
    split; [|split].
    + constructor; [done|]. eapply Forall_impl; [exact Hall|].
      intros x Hx. simpl in Hx. congruence.
    + congruence.
    + exists (ev :: evs). rewrite Ht, Hev, <- app_assoc. simpl.
      split_and!; [done| | |by rewrite Hlen];
        rewrite elem_of_cons; intros [?|?]; congruence.
  - pose proof (Step_Execute_locked st c) as Hk.
    destruct (Step_Execute_trace st c) as (ev & Hev & Hne1 & Hne2).
    change (Step_Execute st c) with (Execute st c) in Hk, Hev.
    rewrite Hst in Hk, Hev. simpl in Hk, Hev.
    split; [by repeat constructor|]. split; [done|].
    exists [ev]. split_and!; [done| | |done];
      rewrite elem_of_cons; intros [?|Hin]; try congruence;
      by apply not_elem_of_nil in Hin.
Qed.

(** C1.  [step2EditFSTab.Execute] runs the sub-steps of [execute] inside one
    transaction of the Shared Store: the lock is taken once before the first
    sub-step and released once after the last one invoked, every sub-step is
    invoked with the lock held, the sub-steps are invoked in order up to the
    first that fails (all of them when none fails), the composite returns
    the error of that sub-step unchanged ([None] when none fails), and the
    lock is free when the composite returns, with or without an error. *)
Theorem step2EditFSTab_Execute_transaction (s : step2EditFSTab) (ctx : Ctx Host) :
  let c0 := set_vars (declare_locals (vars ctx))
              (set_locked true (log EvLock ctx)) in
  let sub := step2EditFSTab_steps s c0 in
  exists starts c1 err,
    Runs sub c0 starts c1 err /\
    Execute s ctx = (set_locked false (log EvUnlock c1), err) /\
    Forall (fun c => locked c = true) starts /\
    locked (Execute s ctx).1 = false /\
    (exists evs,
       trace (Execute s ctx).1 = trace ctx ++ EvLock :: evs ++ [EvUnlock] /\
       (EvLock ∉ evs) /\ (EvUnlock ∉ evs) /\ length evs = length starts) /\
    length starts <= length sub /\
    (err = None -> length starts = length sub) /\
    (forall e, err = Some e ->
       exists st cl, sub !! (length starts - 1) = Some st /\
         last starts = Some cl /\ Execute st cl = (c1, Some e)).
Proof.
  intros c0 sub.
  destruct (run_steps_Runs sub c0) as [starts Hr].
  exists starts, (run_steps sub c0).1, (run_steps sub c0).2.
  assert (He : Execute s ctx =
    (set_locked false (log EvUnlock (run_steps sub c0).1), (run_steps sub c0).2)).
  { change (Execute s ctx) with
      (let '(ctx', err) := run_steps sub c0 in
       (set_locked false (log EvUnlock ctx'), err)).
    by destruct (run_steps sub c0). }
  destruct (Runs_steps_locked _ _ _ _ _ Hr)
    as (Hall & Hl & evs & Ht & Hn1 & Hn2 & Hlen).
  destruct (Runs_invoked _ _ _ _ _ Hr) as (Hle & Hnone & Hsome).
  split_and!; try done.
  - by rewrite He.
  - exists evs. rewrite He.
    change (trace (set_locked false (log EvUnlock (run_steps sub c0).1),
                   (run_steps sub c0).2).1)
      with (trace (run_steps sub c0).1 ++ [EvUnlock]).
    rewrite Ht.
    change (trace c0) with (trace ctx ++ [EvLock]).
    by rewrite <- !app_assoc.
Qed.


#[local] Arguments Contains : simpl never.
#[local] Arguments MatchString : simpl never.
#[local] Arguments Format_2006_01_02 : simpl never.
#[local] Arguments String.append : simpl never.

(** What [Execute] of the composite step does, case by case: it ends at the
    backup when the backup fails, at the probe when the probe fails, and at
    the validation otherwise. *)
Lemma step2EditFSTab_Execute_cases (s : step2EditFSTab) (ctx : Ctx Host) :
  let backup := backup_command (today ctx) in
  let probe := probe_command s in
  let a1 := exec backup (remote ctx) in
  let a2 := exec probe a1.1 in
  let v0 := declare_locals (vars ctx) in
  let v2 := match reply_out a2.2 with
            | Some x => store Ref_uuid x v0
            | None => v0
            end in
  Execute s ctx =
  match reply_err a1.2 with
  | Some e =>
    (mkCtx v0 a1.1 (trace ctx ++ [EvLock; EvRemote backup; EvUnlock]) false
       (today ctx), Some e)
  | None =>
    match reply_err a2.2 with
    | Some e =>
      (mkCtx v2 a2.1
         (trace ctx ++ [EvLock; EvRemote backup; EvRemote probe; EvUnlock])
         false (today ctx), Some e)
    | None =>
      (mkCtx v2 a2.1
         (trace ctx ++
          [EvLock; EvRemote backup; EvRemote probe; EvLambda; EvUnlock])
         false (today ctx),
       (checkDeviceUUID (host s) (device s) Ref_success Ref_uuid v2).2)
    end
  end.
Proof.
  intros backup probe. cbv zeta.
  destruct (exec backup (remote ctx)) as [h1 [o1 e1]] eqn:Ha1.
  cbn [fst snd reply_err reply_out].
  destruct (exec probe h1) as [h2 [o2 e2]] eqn:Ha2.
  cbn [fst snd reply_err reply_out].
  set (v0 := declare_locals (vars ctx)).
  unfold Execute, step2EditFSTab_task_Step, step2EditFSTab_Execute, TX,
    step2EditFSTab_execute, step2EditFSTab_steps.
  cbn [app run_steps today set_vars set_locked log vars].
  unfold Execute at 1, Step_task_Step, Step_Execute, run_command.
  cbn [remote trace vars today locked set_vars set_remote set_locked log].
  fold (backup_path (today ctx)). fold (backup_command (today ctx)).
  fold backup. rewrite Ha1. cbn [reply_err reply_out].
  destruct e1 as [e1|].
  { unfold set_locked, log; cbn. by rewrite <- !app_assoc. }
  unfold Execute at 1, Step_task_Step, Step_Execute, run_command.
  cbn [remote trace vars today locked set_vars set_remote set_locked log].
  fold (probe_command s). fold probe. rewrite Ha2.
  cbn [reply_err reply_out]. fold v0.
  destruct e2 as [e2|].
  { unfold set_locked, log; cbn. by rewrite <- !app_assoc. }
  unfold Execute at 1, Step_task_Step, Step_Execute, run_lambda.
  cbn [remote trace vars today locked set_vars set_remote set_locked log].
  assert (Hs : forall v, v_success v = false ->
    exists e, checkDeviceUUID (host s) (device s) Ref_success Ref_uuid v
              = (v, Some e)).
  { intros v Hv. unfold checkDeviceUUID. cbn [load_bool]. rewrite Hv.
    cbn [negb]. destruct (Contains _ _); eauto. }
  destruct (Hs (match o2 with
                | Some x => store Ref_uuid x v0
                | None => v0
                end)) as [e He].
  { destruct o2; [|done]. subst v0. by destruct (vars ctx). }
  rewrite He. cbn [snd].
  unfold set_locked, log; cbn. by rewrite <- !app_assoc.
Qed.


(** C3.  What the composite step does in the case of the claim.  When the
    probe step returns an error, the composite returns that error as it is,
    whatever string the probe wrote, the marker included: the sub-steps it
    has run are the backup and the probe, and the validation, which alone
    could turn the failure into [ERR_NOT_A_BLOCK_DEVICE], is not invoked.
    The flag that the validation would read is still [false], no step having
    been given it.  No [Sed] runs, so the configuration file is not
    written. *)
Theorem step2EditFSTab_failed_probe (s : step2EditFSTab) (ctx : Ctx Host)
    (e : error) :
  let backup := backup_command (today ctx) in
  let probe := probe_command s in
  let a1 := exec backup (remote ctx) in
  let a2 := exec probe a1.1 in
  let r := Execute s ctx in
  reply_err a1.2 = None ->
  reply_err a2.2 = Some e ->
  r.2 = Some e /\
  trace r.1 =
    trace ctx ++ [EvLock; EvRemote backup; EvRemote probe; EvUnlock] /\
  load_bool Ref_success (vars r.1) = false /\
  (forall u, reply_out a2.2 = Some u -> load Ref_uuid (vars r.1) = u) /\
  Forall (fun ev => is_sed ev = false) (drop (length (trace ctx)) (trace r.1)).
Proof.
  intros backup probe a1 a2 r H1 H2. subst r.
  pose proof (step2EditFSTab_Execute_cases s ctx) as Hc. cbv zeta in Hc.
  fold backup probe a1 a2 in Hc. rewrite H1, H2 in Hc. rewrite Hc.
  cbn [fst snd vars trace]. split_and!; [done|done| | |].
  - destruct (reply_out a2.2); by destruct (vars ctx).
  - intros u ->. by destruct (vars ctx).
  - rewrite drop_app_length. by repeat constructor.
Qed.

(** C4, as amended.  A probed string that does not match the pattern
    [REEGX_DEVICE_UUID] and does not contain the marker makes the validation
    return [ERR_GET_DEVICE_UUID_FAILED] with host, device and the string,
    whatever the flag says; the composite step, once its backup and probe
    sub-steps have returned without error, fails with that error, having
    issued the backup and the probe and no [Sed]. *)
Theorem step2EditFSTab_malformed_uuid (s : step2EditFSTab) (ctx : Ctx Host)
    (u : string) :
  let backup := backup_command (today ctx) in
  let probe := probe_command s in
  let a1 := exec backup (remote ctx) in
  let a2 := exec probe a1.1 in
  let failure :=
    F ERR_GET_DEVICE_UUID_FAILED
      ("host=" +:+ host s +:+ " device=" +:+ device s +:+ " uuid=" +:+ u) in
  MatchString REEGX_DEVICE_UUID u = false ->
  Contains u SIGNATURE_NOT_A_BLOCK_DEVICE = false ->
  (forall v : Vars, load Ref_uuid v = u ->
     checkDeviceUUID (host s) (device s) Ref_success Ref_uuid v
     = (v, Some failure)) /\
  (reply_err a1.2 = None ->
   a2.2 = mkReply (Some u) None ->
   (Execute s ctx).2 = Some failure /\
   trace (Execute s ctx).1 =
     trace ctx ++ [EvLock; EvRemote backup; EvRemote probe; EvLambda; EvUnlock]).
Proof.
  intros backup probe a1 a2 failure Hm Hu.
  assert (Hchk : forall v : Vars, load Ref_uuid v = u ->
     checkDeviceUUID (host s) (device s) Ref_success Ref_uuid v
     = (v, Some failure)).
  { intros v Hv. unfold checkDeviceUUID. rewrite Hv, Hu, Hm.
    by destruct (load_bool Ref_success v). }
  split; [exact Hchk|]. intros H1 H2.
  pose proof (step2EditFSTab_Execute_cases s ctx) as Hc. cbv zeta in Hc.
  fold backup probe a1 a2 in Hc. rewrite H1, H2 in Hc.
  cbn [reply_err reply_out] in Hc. rewrite Hc. cbn [fst snd vars trace].
  split; [|done]. rewrite Hchk; [done|]. by destruct (vars ctx).
Qed.

(** C5.  No sub-step of [execute] holds a pointer to the flag [success], so
    the flag is [false] when the composite returns; every execution ends
    with an error and issues no [Sed]; and when the backup and the probe
    return without error the error is the one of the probe-failed branch of
    [checkDeviceUUID]: [ERR_NOT_A_BLOCK_DEVICE] if the probed string
    contains the marker, [ERR_GET_DEVICE_UUID_FAILED] otherwise.  The
    validation is then the last sub-step invoked: the expressions are still
    empty and the trace ends after one lambda. *)
Theorem step2EditFSTab_success_never_set (s : step2EditFSTab) (ctx : Ctx Host) :
  let backup := backup_command (today ctx) in
  let probe := probe_command s in
  let a1 := exec backup (remote ctx) in
  let a2 := exec probe a1.1 in
  let r := Execute s ctx in
  let u := load Ref_uuid (vars r.1) in
  load_bool Ref_success (vars r.1) = false /\
  r.2 <> None /\
  (exists evs, trace r.1 = trace ctx ++ evs /\
     Forall (fun e => is_sed e = false) evs) /\
  load Ref_express2del (vars r.1) = EmptyString /\
  load Ref_express2add (vars r.1) = EmptyString /\
  (reply_err a1.2 = None -> reply_err a2.2 = None ->
   r.2 = Some (if Contains u SIGNATURE_NOT_A_BLOCK_DEVICE
               then F ERR_NOT_A_BLOCK_DEVICE
                      ("host=" +:+ host s +:+ " device=" +:+ device s)
               else F ERR_GET_DEVICE_UUID_FAILED
                      ("host=" +:+ host s +:+ " device=" +:+ device s
                       +:+ " uuid=" +:+ u)) /\
   trace r.1 =
     trace ctx ++ [EvLock; EvRemote backup; EvRemote probe; EvLambda; EvUnlock]).
Proof.
  intros backup probe a1 a2 r u. subst u r.
  pose proof (step2EditFSTab_Execute_cases s ctx) as Hc. cbv zeta in Hc.
  fold backup probe a1 a2 in Hc. rewrite Hc. clear Hc.
  set (v2 := match reply_out a2.2 with
             | Some x => store Ref_uuid x (declare_locals (vars ctx))
             | None => declare_locals (vars ctx)
             end).
  assert (Hv2 : load_bool Ref_success v2 = false /\
                load Ref_express2del v2 = EmptyString /\
                load Ref_express2add v2 = EmptyString).
  { subst v2. destruct (reply_out a2.2); by destruct (vars ctx). }
  destruct Hv2 as (Hf & Hd & Ha).
  assert (Hchk : (checkDeviceUUID (host s) (device s) Ref_success Ref_uuid v2).2
    = Some (if Contains (load Ref_uuid v2) SIGNATURE_NOT_A_BLOCK_DEVICE
            then F ERR_NOT_A_BLOCK_DEVICE
                   ("host=" +:+ host s +:+ " device=" +:+ device s)
            else F ERR_GET_DEVICE_UUID_FAILED
                   ("host=" +:+ host s +:+ " device=" +:+ device s
                    +:+ " uuid=" +:+ load Ref_uuid v2))).
  { unfold checkDeviceUUID. rewrite Hf. cbn [negb].
    by destruct (Contains _ _). }
  destruct (reply_err a1.2) as [e1|]; [|destruct (reply_err a2.2) as [e2|]];
    cbn [fst snd vars trace].
  - split_and!; [by destruct (vars ctx)|done| |by destruct (vars ctx)
                 |by destruct (vars ctx)|done].
    eexists; split; [done|]. by repeat constructor.
  - split_and!; [done|done| |done|done|done].
    eexists; split; [done|]. by repeat constructor.
  - split_and!; [done| | |done|done|done].
    + rewrite Hchk. done.
    + eexists; split; [done|]. by repeat constructor.
Qed.


(** The steps of the task that the builder returns for a known host. *)
Lemma NewFormatChunkfilePoolTask_steps (curveadm : CurveAdm)
    (fc : FormatConfig) (t : Task) :
  NewFormatChunkfilePoolTask curveadm fc = (Some t, None) ->
  let device := GetDevice fc in
  let mountPoint := GetMountPoint fc in
  let layout := GetCurveBSProjectLayout in
  let containerName := device2ContainerName device in
  let formatScriptPath := ToolsBinDir layout +:+ "/format.sh" in
  let formatCommand :=
    formatScriptPath +:+ " " +:+ FormatBinaryPath layout +:+ " "
    +:+ Sprintf_d (GetFormatPercent fc) +:+ " "
    +:+ Sprintf_d DEFAULT_CHUNKFILE_SIZE +:+ " " +:+ ChunkfilePoolDir layout
    +:+ " " +:+ ChunkfilePoolMetaPath layout in
  steps t =
  [ of_step (ListContainers true "'{{.ID}}'" true ("name=" +:+ containerName)
               Ref_oldContainerId);
    of_step (Lambda (skipFormat Ref_oldContainerId));
    of_step (BlockId device "value" "UUID" Ref_oldUUID);
    of_step (UmountFilesystem [device] true true);
    of_step (CreateDirectory [mountPoint]);
    of_step (CreateFilesystem device);
    of_step (MountFilesystem device mountPoint);
    of_step2EditFSTab
      (mkStep2EditFSTab (GetHost fc) device mountPoint Ref_oldUUID false);
    of_step (PullImage (GetContainerImage fc));
    of_step (CreateContainer (GetContainerImage fc) formatCommand "/bin/bash"
               containerName true
               [mkVolume mountPoint (ChunkfilePoolRootDir layout)]
               Ref_containerId);
    of_step (InstallFile Ref_containerId formatScriptPath Ref_formatScript);
    of_step (StartContainer Ref_containerId) ].
Proof.
  unfold NewFormatChunkfilePoolTask.
  destruct (CurveAdm_GetHost curveadm (GetHost fc)) as [hc|e]; [|done].
  by intros [= <-].
Qed.

(** C2.  When the task built for device [GetDevice fc] is executed and the
    list-containers step, filtered by the name derived from the device,
    returns a non-empty container identifier, the skip check returns
    [ERR_SKIP_TASK], the task ends skipped, and nothing was invoked but the
    listing and the check: no probe, unmount, mkdir, mkfs, mount, edit of
    the configuration file, pull, create, install or start. *)
Theorem skipFormat_skips_task (curveadm : CurveAdm) (fc : FormatConfig)
    (t : Task) (ctx : Ctx Host) (id : string) :
  let listing :=
    CmdListContainers true "'{{.ID}}'" true
      ("name=" +:+ device2ContainerName (GetDevice fc)) in
  NewFormatChunkfilePoolTask curveadm fc = (Some t, None) ->
  (exec listing (remote ctx)).2 = mkReply (Some id) None ->
  (0 < len id)%nat ->
  (run_steps (steps t) ctx).2 = Some ERR_SKIP_TASK /\
  (Task_Execute t ctx).2 = Skipped /\
  trace (Task_Execute t ctx).1 = trace ctx ++ [EvRemote listing; EvLambda] /\
  remote (Task_Execute t ctx).1 = (exec listing (remote ctx)).1.
Proof.
  intros listing Ht Hl Hid.
  assert (Hrun : run_steps (steps t) ctx =
    (mkCtx (store Ref_oldContainerId id (vars ctx))
       (exec listing (remote ctx)).1
       (trace ctx ++ [EvRemote listing; EvLambda]) (locked ctx) (today ctx),
     Some ERR_SKIP_TASK)).
  { rewrite (NewFormatChunkfilePoolTask_steps _ _ _ Ht). cbv zeta.
    cbn [run_steps].
    repeat (unfold Execute, AnyStep_task_Step, Step_task_Step;
            cbn [AnyStep_Execute Step_Execute]).
    unfold run_command at 1. fold listing.
    destruct (exec listing (remote ctx)) as [h r].
    cbn [snd] in Hl. subst r. cbn [reply_out reply_err fst].
    unfold run_lambda, skipFormat. cbn [vars set_vars set_remote log].
    assert (Hld : load Ref_oldContainerId
                    (store Ref_oldContainerId id (vars ctx)) = id)
      by (by destruct (vars ctx)).
    rewrite Hld. apply Nat.ltb_lt in Hid. rewrite Hid.
    unfold set_vars, set_remote, log. cbn [vars remote trace locked today].
    by rewrite <- app_assoc. }
  unfold Task_Execute. rewrite Hrun. done.
Qed.

(** C8.  The builder adds its twelve steps in this order: list containers by
    the derived name, skip check, probe of the current UUID, unmount, create
    the mount directory, make the filesystem, mount, the composite edit of
    the configuration file, pull the image, create the container, install
    the script into it, start it.  The container is created at position 9,
    before the install (10) and the start (11), and the only step that
    starts a container is the last. *)
Theorem NewFormatChunkfilePoolTask_order (curveadm : CurveAdm)
    (fc : FormatConfig) (t : Task) :
  NewFormatChunkfilePoolTask curveadm fc = (Some t, None) ->
  map step_kind (steps t) =
    [ KListContainers; KLambda; KBlockId; KUmountFilesystem; KCreateDirectory;
      KCreateFilesystem; KMountFilesystem; KStep2EditFSTab; KPullImage;
      KCreateContainer; KInstallFile; KStartContainer ] /\
  steps t !! 0 =
    Some (of_step (ListContainers true "'{{.ID}}'" true
                     ("name=" +:+ device2ContainerName (GetDevice fc))
                     Ref_oldContainerId)) /\
  steps t !! 1 = Some (of_step (Lambda (skipFormat Ref_oldContainerId))) /\
  steps t !! 2 =
    Some (of_step (BlockId (GetDevice fc) "value" "UUID" Ref_oldUUID)) /\
  steps t !! 7 =
    Some (of_step2EditFSTab
            (mkStep2EditFSTab (GetHost fc) (GetDevice fc) (GetMountPoint fc)
               Ref_oldUUID false)) /\
  steps t !! 11 = Some (of_step (StartContainer Ref_containerId)) /\
  last (steps t) = Some (of_step (StartContainer Ref_containerId)) /\
  (forall i st, steps t !! i = Some st -> step_kind st = KStartContainer ->
     i = 11).
Proof.
  intros Ht. rewrite (NewFormatChunkfilePoolTask_steps _ _ _ Ht). cbv zeta.
  split_and!; try reflexivity.
  intros i st Hi Hk.
  do 12 (destruct i as [|i]; [cbn in Hi; injection Hi as <-; try done|]).
  done.
Qed.

(** C10.  The builder returns no task and an error exactly when the lookup
    of the host fails, and the error is the one of the lookup; otherwise it
    returns a task of exactly twelve steps, bound to the host that was found,
    and no error.  The builder is a function of its two arguments and the
    collaborators alone: it has no access to the channel. *)
Theorem NewFormatChunkfilePoolTask_result (curveadm : CurveAdm)
    (fc : FormatConfig) :
  let r := NewFormatChunkfilePoolTask curveadm fc in
  let found := CurveAdm_GetHost curveadm (GetHost fc) in
  (r.1 = None /\ r.2 <> None <-> exists e, found = inr e) /\
  (forall e, found = inr e -> r = (None, Some e)) /\
  (forall hc, found = inl hc ->
     exists t, r = (Some t, None) /\ length (steps t) = 12 /\
       sshConfig t = GetSSHConfig hc /\
       name t = "Start Format Chunkfile Pool").
Proof.
  intros r found. subst r found. unfold NewFormatChunkfilePoolTask.
  destruct (CurveAdm_GetHost curveadm (GetHost fc)) as [hc|e]; cbn [fst snd].
  - split_and!.
    + split; [by intros [? _]|by intros [? ?]].
    + done.
    + intros hc' [= <-]. eexists. split; [reflexivity|]. done.
  - split_and!.
    + split; [by eauto|done].
    + by intros e' [= <-].
    + done.
Qed.

End Properties.

(** ** The configuration file on a host with files *)

Section FileProperties.

Context `{!Collaborators}.

Lemma length_append (a b : string) :
  String.length (a +:+ b) = String.length a + String.length b.
Proof.
  induction a as [|c a IH]; [done|].
  change (String c a +:+ b) with (String c (a +:+ b)).
  cbn [String.length]. by rewrite IH.
Qed.

Lemma strip_suffix_append (a suffix : string) :
  FsHost.strip_suffix suffix (a +:+ suffix) = Some a.
Proof.
  induction a as [|c a IH].
  - change (EmptyString +:+ suffix) with suffix.
    destruct suffix as [|b suffix]; cbn [FsHost.strip_suffix]; [done|].
    by rewrite String.eqb_refl.
  - change (String c a +:+ suffix) with (String c (a +:+ suffix)).
    assert (Hne : String c (a +:+ suffix) <> suffix).
    { intros Heq. apply (f_equal String.length) in Heq. simpl in Heq.
      rewrite length_append in Heq. lia. }
    apply String.eqb_neq in Hne.
    cbn [FsHost.strip_suffix]. by rewrite Hne, IH.
Qed.

Lemma prefix_append (p r : string) : String.prefix p (p +:+ r) = true.
Proof.
  induction p as [|c p IH]; [by destruct r|].
  change (String c p +:+ r) with (String c (p +:+ r)).
  cbn [String.prefix]. by destruct (Ascii.ascii_dec c c).
Qed.

Lemma Contains_append (p r : string) : Contains (p +:+ r) p = true.
Proof.
  assert (Hp := prefix_append p r).
  destruct (p +:+ r); cbn [Contains]; by rewrite Hp.
Qed.

Lemma backup_path_fresh (d : Date) : backup_path d <> GetFSTabPath.
Proof.
  unfold backup_path. intros Heq. apply (f_equal String.length) in Heq.
  rewrite !length_append in Heq. simpl in Heq. lia.
Qed.

(** The files after the composite step: those left by the backup. *)
Lemma step2EditFSTab_Execute_files (s : step2EditFSTab) (ctx : Ctx FsHost.t) :
  FsHost.files (remote (Execute s ctx).1) =
  FsHost.files (exec (backup_command (today ctx)) (remote ctx)).1.
Proof.
  rewrite (step2EditFSTab_Execute_cases s ctx). cbv zeta.
  destruct (reply_err (exec (backup_command (today ctx)) (remote ctx)).2);
    [done|].
  set (h1 := (exec (backup_command (today ctx)) (remote ctx)).1).
  assert (Hp : (exec (probe_command s) h1).1 = h1) by done.
  by destruct (reply_err (exec (probe_command s) h1).2); cbn [fst remote];
    rewrite Hp.
Qed.

(** On a host with files the composite step leaves the configuration file
    as it found it. *)
Lemma step2EditFSTab_Execute_keeps_fstab (s : step2EditFSTab)
    (ctx : Ctx FsHost.t) :
  FsHost.files (remote (Execute s ctx).1) !! GetFSTabPath =
  FsHost.files (remote ctx) !! GetFSTabPath.
Proof.
  rewrite step2EditFSTab_Execute_files.
  unfold exec, FsHost.channel, backup_command, FsHost.exec_fs.
  destruct (FsHost.files (remote ctx) !! GetFSTabPath) eqn:Hsrc; [|done].
  destruct (true && bool_decide _); [done|]. cbn.
  rewrite lookup_insert_ne by apply backup_path_fresh. done.
Qed.

(** C6.  The first sub-step of the edit protocol copies the configuration
    file to the path made of its own path, a dash, the date of the day as
    [YYYY-MM-DD] and [.backup], with no-clobber set; it is the first command
    issued under the lock.  A backup that exists for that date is left as it
    is, and when none exists the backup receives the content of the
    configuration file. *)
Theorem step2EditFSTab_backup (s : step2EditFSTab) (ctx : Ctx FsHost.t) :
  let dest :=
    GetFSTabPath +:+ "-" +:+ Format_2006_01_02 (today ctx) +:+ ".backup" in
  let before := FsHost.files (remote ctx) in
  let after := FsHost.files (remote (Execute s ctx).1) in
  head (step2EditFSTab_steps s ctx) = Some (CopyFile GetFSTabPath dest true) /\
  (exists evs, trace (Execute s ctx).1 =
     trace ctx ++ EvLock :: EvRemote (CmdCopyFile GetFSTabPath dest true) :: evs) /\
  (forall existing, before !! dest = Some existing ->
     after !! dest = Some existing) /\
  (forall content, before !! dest = None ->
     before !! GetFSTabPath = Some content -> after !! dest = Some content).
Proof.
  intros dest before after. split; [done|]. split.
  - rewrite (step2EditFSTab_Execute_cases s ctx). cbv zeta.
    fold (backup_path (today ctx)). fold dest.
    destruct (reply_err _); [by eexists|].
    destruct (reply_err _); by eexists.
  - subst after. rewrite step2EditFSTab_Execute_files.
    unfold exec, FsHost.channel, backup_command, FsHost.exec_fs.
    change (backup_path (today ctx)) with dest. fold before. split.
    + intros existing Hd. destruct (before !! GetFSTabPath); [|done].
      rewrite Hd. by rewrite bool_decide_eq_true_2.
    + intros content Hd Hs. rewrite Hs, Hd.
      rewrite bool_decide_eq_false_2 by (by intros [? ?]).
      cbn. by rewrite lookup_insert_eq.
Qed.


Lemma all_chars_append (p : ascii -> bool) (a b : string) :
  FsHost.all_chars p (a +:+ b) = FsHost.all_chars p a && FsHost.all_chars p b.
Proof.
  induction a as [|c a IH]; [done|].
  change (String c a +:+ b) with (String c (a +:+ b)).
  cbn [FsHost.all_chars]. by rewrite IH, andb_assoc.
Qed.

Lemma all_chars_text (a : string) :
  FsHost.all_chars FsHost.literal_char a = true ->
  FsHost.all_chars FsHost.text_char a = true.
Proof.
  induction a as [|c a IH]; [done|]. cbn [FsHost.all_chars].
  intros [Hc Ha]%andb_true_iff. unfold FsHost.text_char.
  rewrite Hc. cbn [orb andb]. by apply IH.
Qed.

(** The key of a record is read literally by sed. *)
Lemma literal_re_key (u : string) :
  FsHost.all_chars FsHost.literal_char u = true ->
  FsHost.literal_re ("UUID=" +:+ u) = true.
Proof.
  intros Hu. unfold FsHost.literal_re. rewrite all_chars_append, Hu.
  reflexivity.
Qed.

(** So is the record itself, as the text of an insertion. *)
Lemma literal_text_record (u mp : string) :
  FsHost.all_chars FsHost.literal_char u = true ->
  FsHost.all_chars FsHost.text_char mp = true ->
  FsHost.literal_text
    ("UUID=" +:+ u +:+ "  " +:+ mp
     +:+ "  ext4  rw,errors=remount-ro  0  0  # " +:+ WARNING_EDIT) = true.
Proof.
  intros Hu Hmp. unfold FsHost.literal_text.
  rewrite !all_chars_append, (all_chars_text u Hu), Hmp. reflexivity.
Qed.

Lemma parse_sed_delete (re : string) :
  FsHost.literal_re re = true ->
  FsHost.parse_sed ("/" +:+ re +:+ "/d") = Some (FsHost.SedDelete re).
Proof.
  intros Hre.
  change ("/" +:+ re +:+ "/d") with (String "/" (re +:+ "/d")).
  unfold FsHost.parse_sed. cbn [FsHost.strip_prefix Ascii.eqb Bool.eqb].
  by rewrite strip_suffix_append, Hre.
Qed.

Lemma parse_sed_append (text : string) :
  FsHost.literal_text text = true ->
  FsHost.parse_sed ("$ a " +:+ text) = Some (FsHost.SedAppendLast text).
Proof.
  intros Ht. unfold FsHost.parse_sed.
  change (FsHost.strip_prefix "$ a " ("$ a " +:+ text)) with (Some text).
  cbv beta iota. by rewrite Ht.
Qed.



End FileProperties.

(** ** The target script *)

Section TargetScriptProperties.

Import TargetScript.

Lemma scan_first_failure (show : nat -> nat) (k : nat) :
  show k <> 0 ->
  forall fuel i, i <= k -> (forall j, i <= j < k -> show j = 0) ->
    k - i < fuel ->
    scan show fuel i =
    Some (map tgtadm_target_show (seq i (S (k - i))), k).
Proof.
  intros Hk. induction fuel as [|fuel IH]; intros i Hik Hlow Hfuel; [lia|].
  cbn [scan]. destruct (decide (i = k)) as [->|Hne].
  - apply Nat.eqb_neq in Hk. rewrite Hk. by rewrite Nat.sub_diag.
  - rewrite (Hlow i) by lia. cbn [Nat.eqb].
    rewrite (IH (S i)) by (try lia; intros j Hj; apply Hlow; lia).
    replace (k - i) with (S (k - S i)) by lia. done.
Qed.

Lemma least_unbound (bound : gset nat) :
  exists k, 1 <= k <= S (size bound) /\ (k ∉ bound) /\
    forall j, 1 <= j < k -> j ∈ bound.
Proof.
  assert (Hn : forall n,
    (forall j, 1 <= j <= n -> j ∈ bound) \/
    (exists k, 1 <= k <= n /\ (k ∉ bound) /\ forall j, 1 <= j < k -> j ∈ bound)).
  { induction n as [|n [Hall|(k & Hk & Hnot & Hlow)]].
    - left. intros j Hj. lia.
    - destruct (decide (S n ∈ bound)) as [Hin|Hout].
      + left. intros j Hj. destruct (decide (j = S n)) as [->|?]; [done|].
        apply Hall. lia.
      + right. exists (S n). split; [lia|]. split; [done|].
        intros j Hj. apply Hall. lia.
    - right. exists k. split; [lia|]. done. }
  destruct (Hn (S (size bound))) as [Hall|Hex]; [|done].
  exfalso.
  assert (Hsub : (set_seq 1 (S (size bound)) : gset nat) ⊆ bound).
  { intros j Hj. apply elem_of_set_seq in Hj. apply Hall. lia. }
  apply subseteq_size in Hsub. rewrite size_set_seq in Hsub. lia.
Qed.

(** C9.  With [CREATE] equal to [true], a create command that fails is
    tolerated exactly when its captured output is the string
    [CreateFile fail with errCode: 101]: with any other output the script
    exits with status 1 right after the create command, before any target
    is shown or registered.  When the create command succeeds or is
    tolerated, the script registers the target under the smallest positive
    identifier that no bound target has, having shown the identifiers from 1
    up to it; the scan ends within as many iterations as there are bound
    targets, plus one. *)
Theorem TARGET_create_then_first_free_tid (tools : Tools)
    (g_user g_volume g_size : string) (bound : gset nat) (fuel : nat) :
  let created := curve_ops_tool tools g_user g_volume g_size in
  let output := command_substitution created.1 in
  let run := TARGET tools fuel g_user g_volume "true" g_size in
  let before :=
    [ mkdir_p "/curvebs/nebd/data/lock"; touch "/etc/curve/curvetab";
      curve_ops_tool_create g_user g_volume g_size ] in
  let g_image := "cbd:pool/" +:+ g_volume +:+ "_" +:+ g_user +:+ "_" in
  let registration tid :=
    [ tgtadm_target_new tid
        ("iqn." +:+ date tools +:+ ".com.opencurve:curve."
         +:+ md5sum tools g_image);
      tgtadm_logicalunit_new tid g_image;
      tgtadm_logicalunit_update tid
        "vendor_id=NetEase,product_id=CurveVolume,product_rev=2.0";
      tgtadm_target_bind tid ] in
  (forall i, tgtadm_show tools i = 0 <-> i ∈ bound) ->
  size bound < fuel ->
  (created.2 <> 0 ->
     (output = TOLERATED <-> run <> Some (before, Exit 1))) /\
  (created.2 <> 0 -> output <> TOLERATED -> run = Some (before, Exit 1)) /\
  (created.2 = 0 \/ output = TOLERATED ->
     exists tid,
       run = Some (before ++ map tgtadm_target_show (seq 1 tid)
                   ++ registration tid, Registered tid) /\
       1 <= tid /\ (tid ∉ bound) /\ (forall j, 1 <= j < tid -> j ∈ bound)).
Proof.
  intros created output run before g_image registration Hshow Hfuel.
  destruct (least_unbound bound) as (k & Hk & Hnot & Hlow).
  assert (Hscan : scan (tgtadm_show tools) fuel 1 =
                  Some (map tgtadm_target_show (seq 1 (S (k - 1))), k)).
  { apply scan_first_failure; [by rewrite Hshow|lia| |lia].
    intros j Hj. apply Hshow, Hlow. lia. }
  replace (S (k - 1)) with k in Hscan by lia.
  assert (Hok : created.2 = 0 \/ output = TOLERATED ->
     exists tid,
       run = Some (before ++ map tgtadm_target_show (seq 1 tid)
                   ++ registration tid, Registered tid) /\
       1 <= tid /\ (tid ∉ bound) /\ (forall j, 1 <= j < tid -> j ∈ bound)).
  { intros Hcase. subst run. unfold TARGET. cbn [String.eqb Ascii.eqb Bool.eqb].
    fold created. destruct created as [stdout status] eqn:Hc.
    cbn [fst snd] in *. fold output.
    assert (Hgo : negb (status =? 0) && negb (String.eqb output TOLERATED)
                  = false).
    { destruct Hcase as [-> | ->]; [done|].
      rewrite String.eqb_refl. by rewrite andb_false_r. }
    rewrite Hgo, Hscan. exists k. split; [reflexivity|].
    split; [lia|]. done. }
  assert (Hfatal : created.2 <> 0 -> output <> TOLERATED ->
                   run = Some (before, Exit 1)).
  { intros Hst Hout. subst run. unfold TARGET.
    cbn [String.eqb Ascii.eqb Bool.eqb]. fold created.
    destruct created as [stdout status] eqn:Hc. cbn [fst snd] in *.
    fold output. apply Nat.eqb_neq in Hst. apply String.eqb_neq in Hout.
    by rewrite Hst, Hout. }
  split_and!; [|done|done].
  intros Hst. split.
  - intros Hout. destruct Hok as (tid & -> & _); [by right|]. done.
  - intros Hrun. destruct (decide (output = TOLERATED)) as [|Hne]; [done|].
    by specialize (Hfatal Hst Hne).
Qed.

End TargetScriptProperties.

(** * The theorems at a concrete deployment *)

Module Examples.

Import Demo.

Example Format_2006_01_02_example :
  Format_2006_01_02 (mkDate 2021 12 27) = "2021-12-27" /\
  Format_2006_01_02 (mkDate 2022 2 8) = "2022-02-08".
Proof. split; reflexivity. Qed.

Example REEGX_DEVICE_UUID_examples :
  MatchString REEGX_DEVICE_UUID good_uuid = true /\
  MatchString REEGX_DEVICE_UUID odd_uuid = true /\
  MatchString REEGX_DEVICE_UUID "82511eb8e4e34a50a736d584fbf533fa" = false /\
  MatchString REEGX_DEVICE_UUID marker_output = false.
Proof. repeat split; reflexivity. Qed.

(** C2 at the demo host, where a container [0f3c2a] exists under the derived
    name. *)
Lemma existing_container_is_skipped :
  NewFormatChunkfilePoolTask curveadm fc = (Some task, None) /\
  (0 < len "0f3c2a")%nat /\
  (Task_Execute task (ctx_with good_uuid "0f3c2a")).2 = Skipped /\
  trace (Task_Execute task (ctx_with good_uuid "0f3c2a")).1 =
    [ EvRemote (CmdListContainers true "'{{.ID}}'" true
                  "name=curvebs-format-5bbf5a52328e7439ae6e719dfe712200");
      EvLambda ].
Proof.
  assert (Hid : (0 < len "0f3c2a")%nat) by (vm_compute; lia).
  split; [reflexivity|]. split; [exact Hid|].
  pose proof (skipFormat_skips_task curveadm fc task
                (ctx_with good_uuid "0f3c2a") "0f3c2a" eq_refl eq_refl Hid)
    as (_ & Hskip & Htrace & _).
  split; [exact Hskip|exact Htrace].
Defined.

(** C3 at a host where the probe fails and prints that the device is no
    block device: the composite returns the error of the probe, not
    [ERR_NOT_A_BLOCK_DEVICE]. *)
Lemma failed_probe_keeps_its_error :
  let blkid := mkError (OTHER_KIND 7) "blkid" in
  let h := FsHost.mk {[ "/etc/fstab" := fstab ]}
             (fun c => match c with
                       | CmdBlockId _ _ _ =>
                         mkReply (Some marker_output) (Some blkid)
                       | _ => mkReply None None
                       end)
             (fun _ _ _ m => (m, mkReply None (Some FsHost.failed))) in
  let c := mkCtx initial_vars h [] false (mkDate 2021 12 27) in
  Contains marker_output SIGNATURE_NOT_A_BLOCK_DEVICE = true /\
  (Execute edit c).2 = Some blkid /\
  kind blkid <> NOT_A_BLOCK_DEVICE /\
  load Ref_uuid (vars (Execute edit c).1) = marker_output /\
  trace (Execute edit c).1 =
    [ EvLock;
      EvRemote (CmdCopyFile "/etc/fstab" "/etc/fstab-2021-12-27.backup" true);
      EvRemote (CmdBlockId "/dev/sdb" "value" "UUID"); EvUnlock ].
Proof.
  intros blkid h c. split; [reflexivity|].
  assert (H1 : reply_err (exec (backup_command (today c)) (remote c)).2 = None)
    by (vm_compute; reflexivity).
  assert (H2 : reply_err
                 (exec (probe_command edit)
                    (exec (backup_command (today c)) (remote c)).1).2
               = Some blkid)
    by (vm_compute; reflexivity).
  destruct (step2EditFSTab_failed_probe edit c blkid H1 H2)
    as (Herr & Htrace & _ & Hout & _).
  split; [exact Herr|]. split; [discriminate|].
  split; [|exact Htrace]. apply Hout. vm_compute. reflexivity.
Defined.

(** C4, as amended, at a probed string of 35 characters. *)
Lemma short_uuid_is_rejected :
  MatchString REEGX_DEVICE_UUID "82511eb8-e4e3-4a50-a736-d584fbf533f" = false /\
  Contains "82511eb8-e4e3-4a50-a736-d584fbf533f"
    SIGNATURE_NOT_A_BLOCK_DEVICE = false /\
  (Execute edit (ctx_with "82511eb8-e4e3-4a50-a736-d584fbf533f" EmptyString)).2 =
    Some (mkError GET_DEVICE_UUID_FAILED
            "host=node1 device=/dev/sdb uuid=82511eb8-e4e3-4a50-a736-d584fbf533f").
Proof.
  split; [reflexivity|]. split; [reflexivity|].
  refine (proj1 (proj2 (step2EditFSTab_malformed_uuid edit
            (ctx_with "82511eb8-e4e3-4a50-a736-d584fbf533f" EmptyString)
            "82511eb8-e4e3-4a50-a736-d584fbf533f" _ _) _ _));
    reflexivity.
Defined.

(** C4 as stated fails.  [odd_uuid] has the right lengths and dashes and no
    hexadecimal digit, yet the pattern accepts it when the probe is reported
    successful; in the composite step the backup is made before the probed
    string is looked at; and a probed string that carries the marker is not
    canonical either, but the error it yields is [ERR_NOT_A_BLOCK_DEVICE]. *)
Lemma odd_uuid_backup_is_made :
  let before := ctx_with odd_uuid EmptyString in
  let after := (Execute edit before).1 in
  canonical_uuid odd_uuid = false /\
  (checkDeviceUUID "node1" "/dev/sdb" Ref_success Ref_uuid
     (mkVars EmptyString EmptyString EmptyString EmptyString odd_uuid true
        EmptyString EmptyString)).2 = None /\
  FsHost.files (remote before) !! "/etc/fstab-2021-12-27.backup" = None /\
  FsHost.files (remote after) !! "/etc/fstab-2021-12-27.backup" = Some fstab /\
  trace after =
    [ EvLock;
      EvRemote (CmdCopyFile "/etc/fstab" "/etc/fstab-2021-12-27.backup" true);
      EvRemote (CmdBlockId "/dev/sdb" "value" "UUID"); EvLambda; EvUnlock ] /\
  canonical_uuid marker_output = false /\
  kind <$> (Execute edit (ctx_with marker_output EmptyString)).2
    = Some NOT_A_BLOCK_DEVICE.
Proof. repeat split; vm_compute; reflexivity. Qed.



(** C8 at the demo configuration. *)
Lemma demo_task_order :
  NewFormatChunkfilePoolTask curveadm fc = (Some task, None) /\
  map step_kind (steps task) =
    [ KListContainers; KLambda; KBlockId; KUmountFilesystem; KCreateDirectory;
      KCreateFilesystem; KMountFilesystem; KStep2EditFSTab; KPullImage;
      KCreateContainer; KInstallFile; KStartContainer ].
Proof.
  split; [reflexivity|].
  exact (proj1 (NewFormatChunkfilePoolTask_order curveadm fc task eq_refl)).
Defined.

(** The captured output has no line feed at its end. *)
Example command_substitution_example :
  TargetScript.command_substitution
    (TargetScript.TOLERATED +:+ String "010" EmptyString)
  = TargetScript.TOLERATED.
Proof. reflexivity. Qed.

(** C9 at a host where the targets 1, 2 and 4 are bound and the volume
    exists: the script registers the target 3. *)
Lemma third_target_is_registered :
  (forall i, TargetScript.tgtadm_show
               (tools (TargetScript.TOLERATED +:+ String "010" EmptyString) 1) i
             = 0 <-> i ∈ ({[1; 2; 4]} : gset nat)) /\
  size ({[1; 2; 4]} : gset nat) < 4 /\
  exists calls,
    TargetScript.TARGET
      (tools (TargetScript.TOLERATED +:+ String "010" EmptyString) 1)
      4 "curve" "test" "true" "10"
    = Some (calls, TargetScript.Registered 3).
Proof.
  assert (Hshow : forall i, TargetScript.tgtadm_show
               (tools (TargetScript.TOLERATED +:+ String "010" EmptyString) 1) i
             = 0 <-> i ∈ ({[1; 2; 4]} : gset nat)).
  { intros i. cbn. case_bool_decide; split; done. }
  assert (Hfuel : size ({[1; 2; 4]} : gset nat) < 4) by (vm_compute; lia).
  pose proof (TARGET_create_then_first_free_tid
                (tools (TargetScript.TOLERATED +:+ String "010" EmptyString) 1)
                "curve" "test" "10" {[1; 2; 4]} 4 Hshow Hfuel)
    as (_ & _ & Hreg).
  split; [exact Hshow|]. split; [exact Hfuel|].
  destruct (Hreg (or_intror eq_refl)) as (tid & Hrun & Hpos & Hnot & Hlow).
  assert (Htid : tid = 3).
  { destruct (decide (3 < tid)) as [Hgt|Hle].
    - specialize (Hlow 3 ltac:(lia)). set_unfold in Hlow. lia.
    - assert (tid = 1 \/ tid = 2 \/ tid = 3) as [-> | [-> | ->]] by lia;
        [| |done]; exfalso; apply Hnot; set_unfold; lia. }
  subst tid. eexists. exact Hrun.
Defined.

End Examples.

(** * Further properties *)

(** ** The pattern of the validation *)

Section PatternProperties.

(** An anchored program matches when it has as many instructions as the
    input has runes and every rune passes its instruction. *)
Lemma match_runes_spec (prog : list Inst) :
  forall rs : list N,
    match_runes prog rs = true <->
    length rs = length prog /\
    forall i inst r, prog !! i = Some inst -> rs !! i = Some r ->
      inst_ok inst r = true.
Proof.
  induction prog as [|inst prog IH]; intros [|r rs]; cbn [match_runes length].
  - split; [|done]. intros _. split; [done|]. intros i ? ? Hi. done.
  - split; [done|]. intros [? _]. done.
  - split; [done|]. intros [? _]. done.
  - rewrite andb_true_iff, IH. split.
    + intros (Hok & Hlen & Hall). split; [by rewrite Hlen|].
      intros [|i] inst' r' Hp Hr; cbn in Hp, Hr.
      * by injection Hp as <-; injection Hr as <-.
      * by eapply Hall.
    + intros (Hlen & Hall). split_and!.
      * by apply (Hall 0).
      * by injection Hlen.
      * intros i inst' r' Hp Hr. by apply (Hall (S i)).
Qed.

Lemma Compile_REEGX_DEVICE_UUID :
  Compile REEGX_DEVICE_UUID =
  Some (replicate 8 AnyNotNL ++ [Rune1 45] ++ replicate 4 AnyNotNL
        ++ [Rune1 45] ++ replicate 4 AnyNotNL ++ [Rune1 45]
        ++ replicate 4 AnyNotNL ++ [Rune1 45] ++ replicate 12 AnyNotNL).
Proof. reflexivity. Qed.

Lemma REEGX_DEVICE_UUID_instruction (i : nat) (inst : Inst) :
  (replicate 8 AnyNotNL ++ [Rune1 45] ++ replicate 4 AnyNotNL
   ++ [Rune1 45] ++ replicate 4 AnyNotNL ++ [Rune1 45]
   ++ replicate 4 AnyNotNL ++ [Rune1 45] ++ replicate 12 AnyNotNL) !! i
  = Some inst ->
  i < 36 /\
  inst = if bool_decide (i ∈ dash_positions) then Rune1 45 else AnyNotNL.
Proof.
  intros Hi.
  do 36 (destruct i as [|i];
    [injection Hi as <-; split; [lia|reflexivity]|]).
  done.
Qed.

(** The pattern matches exactly the sequences of 36 runes with the four
    dashes in place and no line feed elsewhere. *)
Lemma MatchString_REEGX_DEVICE_UUID (u : string) :
  MatchString REEGX_DEVICE_UUID u = true <-> grouped_8_4_4_4_12 (runes u).
Proof.
  unfold MatchString. rewrite Compile_REEGX_DEVICE_UUID.
  rewrite match_runes_spec. unfold grouped_8_4_4_4_12. split.
  - intros [Hlen Hall].
    assert (Hlen' : length (runes u) = 36) by exact Hlen.
    split; [exact Hlen|]. split.
    + intros i Hi.
      assert (Hlt : i < 36).
      { unfold dash_positions in Hi. set_unfold in Hi. lia. }
      destruct (lookup_lt_is_Some_2 (runes u) i) as [r Hr]; [lia|].
      destruct (lookup_lt_is_Some_2
        (replicate 8 AnyNotNL ++ [Rune1 45] ++ replicate 4 AnyNotNL
         ++ [Rune1 45] ++ replicate 4 AnyNotNL ++ [Rune1 45]
         ++ replicate 4 AnyNotNL ++ [Rune1 45] ++ replicate 12 AnyNotNL) i)
        as [inst Hp]; [cbn; lia|].
      pose proof (Hall i inst r Hp Hr) as Hok.
      apply REEGX_DEVICE_UUID_instruction in Hp as [_ ->].
      rewrite bool_decide_eq_true_2 in Hok by done.
      cbn in Hok. apply N.eqb_eq in Hok. by rewrite Hr, Hok.
    + intros i r Hi Hr.
      assert (Hlt : i < 36) by (apply lookup_lt_Some in Hr; lia).
      destruct (lookup_lt_is_Some_2
        (replicate 8 AnyNotNL ++ [Rune1 45] ++ replicate 4 AnyNotNL
         ++ [Rune1 45] ++ replicate 4 AnyNotNL ++ [Rune1 45]
         ++ replicate 4 AnyNotNL ++ [Rune1 45] ++ replicate 12 AnyNotNL) i)
        as [inst Hp]; [cbn; lia|].
      pose proof (Hall i inst r Hp Hr) as Hok.
      apply REEGX_DEVICE_UUID_instruction in Hp as [_ ->].
      rewrite bool_decide_eq_false_2 in Hok by done.
      cbn in Hok. apply negb_true_iff, N.eqb_neq in Hok. done.
  - intros (Hlen & Hdash & Hother). split; [exact Hlen|].
    intros i inst r Hp Hr.
    apply REEGX_DEVICE_UUID_instruction in Hp as [_ ->].
    case_bool_decide as Hi.
    + rewrite (Hdash i Hi) in Hr. by injection Hr as <-.
    + cbn. apply negb_true_iff, N.eqb_neq. by eapply Hother.
Qed.

(** X1.  When the flag reports a successful probe, the validation returns
    no error exactly for the strings of 36 runes that have a dash at the
    positions 8, 13, 18 and 23 and no line feed at any other position; the
    other characters need not be hexadecimal digits. *)
Theorem checkDeviceUUID_accepts_grouped (host device : string) (v : Vars) :
  load_bool Ref_success v = true ->
  ((checkDeviceUUID host device Ref_success Ref_uuid v).2 = None <->
   grouped_8_4_4_4_12 (runes (load Ref_uuid v))).
Proof.
  intros Hs. rewrite <- MatchString_REEGX_DEVICE_UUID.
  unfold checkDeviceUUID. rewrite Hs. cbn [negb].
  destruct (MatchString REEGX_DEVICE_UUID _); cbn; split; done.
Qed.

Lemma bytes_append (a b : string) : bytes (a +:+ b) = bytes a ++ bytes b.
Proof.
  unfold bytes. induction a as [|c a IH]; [done|].
  change (String c a +:+ b) with (String c (a +:+ b)).
  cbn [String.list_ascii_of_string map app]. by rewrite IH.
Qed.

Lemma bytes_String (c : ascii) (s : string) :
  bytes (String c s) = Ascii.N_of_ascii c :: bytes s.
Proof. done. Qed.

Lemma runes_ascii (l : list N) :
  Forall (fun b => (b < 128)%N) l -> runes_from 0 l = l.
Proof.
  induction 1 as [|b l Hb _ IH]; [done|].
  cbn [runes_from DecodeRune]. apply N.ltb_lt in Hb.
  change 0x80%N with 128%N. rewrite Hb. cbn [pred]. by rewrite IH.
Qed.

Lemma is_hex_byte (c : ascii) :
  is_hex c = true ->
  (Ascii.N_of_ascii c < 128)%N /\ Ascii.N_of_ascii c <> 10%N.
Proof.
  destruct c as [[] [] [] [] [] [] [] []]; intros Hx;
    try discriminate Hx; split; vm_compute; congruence.
Qed.

Lemma group_spec (n : nat) :
  forall s r, group n s = Some r ->
    exists g, s = g +:+ r /\ length (bytes g) = n /\
      Forall (fun b => (b < 128)%N /\ b <> 10%N) (bytes g).
Proof.
  induction n as [|n IH]; intros s r Hg; cbn [group] in Hg.
  - injection Hg as <-. exists EmptyString. by repeat split.
  - destruct s as [|c s]; [done|]. destruct (is_hex c) eqn:Hc; [|done].
    destruct (IH s r Hg) as (g & -> & Hlen & Hall).
    exists (String c g). split; [done|].
    change (bytes (String c g)) with (Ascii.N_of_ascii c :: bytes g).
    split; [by cbn [length]; rewrite Hlen|].
    constructor; [by apply is_hex_byte|done].
Qed.

Lemma dash_spec (o : option string) (r : string) :
  dash o = Some r -> o = Some (String "-" r).
Proof.
  destruct o as [[|c s]|]; [done| |done].
  destruct c as [[] [] [] [] [] [] [] []]; try done. by intros [= ->].
Qed.

Lemma match_runes_any (n : nat) (p : list Inst) :
  forall g r, length g = n -> Forall (fun b => b <> 10%N) g ->
    match_runes (replicate n AnyNotNL ++ p) (g ++ r) = match_runes p r.
Proof.
  induction n as [|n IH]; intros [|b g] r Hlen Hall; try done.
  cbn [replicate app match_runes inst_ok].
  inversion Hall as [|? ? Hb Hg]; subst.
  apply N.eqb_neq in Hb. rewrite Hb. cbn [negb andb].
  apply IH; [by injection Hlen|done].
Qed.

(** X2.  Every UUID in the canonical form, groups of 8, 4, 4, 4 and 12
    hexadecimal digits separated by dashes, matches the pattern, and so
    passes the validation when the flag reports a successful probe. *)
Theorem checkDeviceUUID_accepts_canonical (host device u : string) (v : Vars) :
  canonical_uuid u = true ->
  load_bool Ref_success v = true ->
  load Ref_uuid v = u ->
  MatchString REEGX_DEVICE_UUID u = true /\
  checkDeviceUUID host device Ref_success Ref_uuid v = (v, None).
Proof.
  intros Hc Hs Hu.
  assert (Hm : MatchString REEGX_DEVICE_UUID u = true).
  { unfold canonical_uuid in Hc.
    destruct (dash (group 8 u)) as [s1|] eqn:D1; [|done].
    destruct (dash (group 4 s1)) as [s2|] eqn:D2; [|done].
    destruct (dash (group 4 s2)) as [s3|] eqn:D3; [|done].
    destruct (dash (group 4 s3)) as [s4|] eqn:D4; [|done].
    apply bool_decide_eq_true_1 in Hc.
    apply dash_spec, group_spec in D1 as (g1 & -> & L1 & A1).
    apply dash_spec, group_spec in D2 as (g2 & -> & L2 & A2).
    apply dash_spec, group_spec in D3 as (g3 & -> & L3 & A3).
    apply dash_spec, group_spec in D4 as (g4 & -> & L4 & A4).
    apply group_spec in Hc as (g5 & -> & L5 & A5).
    assert (Hb : bytes (g1 +:+ String "-" (g2 +:+ String "-" (g3 +:+
                   String "-" (g4 +:+ String "-" (g5 +:+ EmptyString)))))
                 = bytes g1 ++ 45%N :: bytes g2 ++ 45%N :: bytes g3
                   ++ 45%N :: bytes g4 ++ 45%N :: bytes g5 ++ []).
    { repeat first [rewrite bytes_append|rewrite bytes_String]. done. }
    assert (Hne : forall g, Forall (fun b => (b < 128)%N /\ b <> 10%N) g ->
                    Forall (fun b => b <> 10%N) g).
    { intros g Hg. eapply Forall_impl; [exact Hg|]. by intros ? [? ?]. }
    assert (Hlt : forall g, Forall (fun b => (b < 128)%N /\ b <> 10%N) g ->
                    Forall (fun b => (b < 128)%N) g).
    { intros g Hg. eapply Forall_impl; [exact Hg|]. by intros ? [? ?]. }
    unfold MatchString. rewrite Compile_REEGX_DEVICE_UUID.
    unfold runes. rewrite Hb, runes_ascii.
    - rewrite match_runes_any by auto.
      cbn [app match_runes inst_ok]. rewrite N.eqb_refl. cbn [andb].
      rewrite match_runes_any by auto.
      cbn [app match_runes inst_ok]. rewrite N.eqb_refl. cbn [andb].
      rewrite match_runes_any by auto.
      cbn [app match_runes inst_ok]. rewrite N.eqb_refl. cbn [andb].
      rewrite match_runes_any by auto.
      cbn [app match_runes inst_ok]. rewrite N.eqb_refl. cbn [andb].
      rewrite <- (app_nil_r (replicate 12 AnyNotNL)).
      by rewrite match_runes_any by auto.
    - repeat first [ apply Forall_app; split; [by auto|]
                   | apply Forall_cons; split; [done|]
                   | by apply Forall_nil ]. }
  split; [exact Hm|].
  unfold checkDeviceUUID. by rewrite Hs, Hu, Hm.
Qed.


Lemma prefix_split (m : string) :
  forall s, String.prefix m s = true -> exists b, s = m +:+ b.
Proof.
  induction m as [|c m IH]; intros s Hp.
  - by exists s.
  - destruct s as [|c' s]; [done|]. cbn [String.prefix] in Hp.
    destruct (Ascii.ascii_dec c c') as [->|]; [|done].
    destruct (IH s Hp) as [b ->]. by exists b.
Qed.

Lemma Contains_split (m : string) :
  forall s, Contains s m = true -> exists a b, s = a +:+ m +:+ b.
Proof.
  induction s as [|c s IH]; intros Hc; cbn [Contains] in Hc.
  - destruct (String.prefix m EmptyString) eqn:Hp; [|done].
    apply prefix_split in Hp as [b Hb]. by exists EmptyString, b.
  - destruct (String.prefix m (String c s)) eqn:Hp.
    + apply prefix_split in Hp as [b Hb]. by exists EmptyString, b.
    + destruct (IH Hc) as (a & b & ->). by exists (String c a), b.
Qed.

(** The bytes that [DecodeRune] takes after the first are continuation
    bytes, so none of them is an ASCII character. *)
Lemma DecodeRune_width (b : N) (t : list N) :
  1 <= (DecodeRune (b :: t)).2 /\
  (DecodeRune (b :: t)).2 - 1 <= length t /\
  Forall (fun x => (128 <= x)%N) (take ((DecodeRune (b :: t)).2 - 1) t).
Proof.
  unfold DecodeRune.
  destruct (b <? 0x80)%N; [by repeat split; cbn; try lia|].
  destruct ((b <? 0xC2) || (0xF4 <? b))%N; [by repeat split; cbn; try lia|].
  set (accept := (if (b =? 0xE0)%N then _ else _) : N * N).
  assert (Hlo : (128 <= accept.1)%N).
  { subst accept. repeat case_match; cbn; lia. }
  assert (Hcont : forall x, between 0x80 0xBF x = true -> (128 <= x)%N).
  { intros x Hx. unfold between in Hx.
    apply andb_true_iff in Hx as [Hx _]. apply N.leb_le in Hx. lia. }
  destruct t as [|s1 t1]; [by repeat split; cbn; try lia|].
  destruct (between accept.1 accept.2 s1) eqn:H1; cbn [negb];
    [|by repeat split; cbn; try lia].
  assert (H1' : (128 <= s1)%N).
  { unfold between in H1. apply andb_true_iff in H1 as [H1 _].
    apply N.leb_le in H1. lia. }
  destruct (_ =? 2)%nat;
    [by repeat split; cbn; try lia; repeat constructor|].
  destruct t1 as [|s2 t2]; [by repeat split; cbn; try lia|].
  destruct (between 0x80 0xBF s2) eqn:H2; cbn [negb];
    [|by repeat split; cbn; try lia].
  apply Hcont in H2.
  destruct (_ =? 3)%nat;
    [by repeat split; cbn; try lia; repeat constructor|].
  destruct t2 as [|s3 t3]; [by repeat split; cbn; try lia|].
  destruct (between 0x80 0xBF s3) eqn:H3; cbn [negb];
    [|by repeat split; cbn; try lia].
  apply Hcont in H3.
  by repeat split; cbn; try lia; repeat constructor.
Qed.

(** Decoding stops at an ASCII byte: the runes of the bytes before it do not
    depend on what follows. *)
Lemma runes_from_before_ascii (rest : list N) :
  (forall b, head rest = Some b -> (b < 128)%N) ->
  forall la skip, skip <= length la ->
    Forall (fun x => (128 <= x)%N) (take skip la) ->
    exists ra, runes_from skip (la ++ rest) = ra ++ runes_from 0 rest.
Proof.
  intros Hrest. induction la as [|b la IH]; intros skip Hskip Hall.
  - cbn in Hskip. assert (skip = 0) as -> by lia. by exists [].
  - destruct skip as [|k].
    + cbn [app runes_from].
      destruct (DecodeRune_width b (la ++ rest)) as (Hw1 & Hw2 & Hw3).
      destruct (DecodeRune (b :: la ++ rest)) as [r w]. cbn [snd] in *.
      assert (Hwla : w - 1 <= length la).
      { destruct (decide (w - 1 <= length la)) as [|Hgt]; [done|]. exfalso.
        rewrite length_app in Hw2.
        destruct rest as [|x rest']; [cbn in Hw2; lia|].
        assert (Hx : (x < 128)%N) by (by apply Hrest).
        assert (Hin : (la ++ x :: rest') !! length la = Some x)
          by (by rewrite list_lookup_middle).
        assert (Htake : take (w - 1) (la ++ x :: rest') !! length la = Some x)
          by (rewrite lookup_take_lt by lia; exact Hin).
        pose proof (Forall_lookup_1 _ _ _ _ Hw3 Htake) as Hge. cbn in Hge.
        lia. }
      rewrite take_app_le in Hw3 by lia.
      replace (pred w) with (w - 1) by lia.
      destruct (IH (w - 1) Hwla Hw3) as [ra Hra].
      exists (r :: ra). by rewrite Hra.
    + cbn [app runes_from]. cbn [length] in Hskip.
      cbn [take] in Hall. apply Forall_cons in Hall as [_ Hall].
      apply IH; [lia|done].
Qed.

Lemma runes_from_ascii_prefix (rest : list N) (lm : list N) :
  Forall (fun b => (b < 128)%N) lm ->
  runes_from 0 (lm ++ rest) = lm ++ runes_from 0 rest.
Proof.
  induction 1 as [|b l Hb _ IH]; [done|].
  cbn [app runes_from DecodeRune]. apply N.ltb_lt in Hb.
  change 0x80%N with 128%N. rewrite Hb. cbn [pred]. by rewrite IH.
Qed.

(** A string that carries the marker never matches the pattern: the marker
    has 18 characters and no dash, and no group of the pattern is that
    long. *)
Lemma marker_never_matches (u : string) :
  Contains u SIGNATURE_NOT_A_BLOCK_DEVICE = true ->
  MatchString REEGX_DEVICE_UUID u = false.
Proof.
  intros Hc. apply Contains_split in Hc as (a & b & ->).
  apply not_true_is_false. rewrite MatchString_REEGX_DEVICE_UUID.
  intros (Hlen & Hdash & _).
  set (lm := bytes SIGNATURE_NOT_A_BLOCK_DEVICE).
  assert (Hascii : Forall (fun x => (x < 128)%N) lm)
    by (repeat constructor).
  assert (Hnodash : Forall (fun x => x <> 45%N) lm)
    by (repeat constructor; done).
  assert (Hr : exists ra rb,
            runes (a +:+ SIGNATURE_NOT_A_BLOCK_DEVICE +:+ b) = ra ++ lm ++ rb).
  { unfold runes. rewrite !bytes_append. fold lm.
    destruct (runes_from_before_ascii (lm ++ bytes b)) with
      (la := bytes a) (skip := 0) as [ra Hra];
      [by intros x [= <-]|lia|by constructor|].
    exists ra, (runes_from 0 (bytes b)).
    by rewrite Hra, runes_from_ascii_prefix. }
  destruct Hr as (ra & rb & Hr). rewrite Hr in Hlen, Hdash.
  rewrite !length_app in Hlen.
  change (length lm) with 18 in Hlen.
  set (n := length ra) in *.
  set (p := if decide (n <= 8) then 8 else if decide (n <= 13) then 13 else 18).
  assert (Hp : p ∈ dash_positions /\ n <= p < n + 18).
  { subst p. unfold dash_positions. repeat case_decide; split;
      try lia; set_unfold; lia. }
  destruct Hp as [Hpd Hpr]. specialize (Hdash p Hpd).
  rewrite lookup_app_r in Hdash by (subst n; lia).
  rewrite lookup_app_l in Hdash by (change (length lm) with 18; subst n; lia).
  by pose proof (Forall_lookup_1 _ _ _ _ Hnodash Hdash).
Qed.

(** X3.  The validation never accepts a string that carries the marker
    [not a block device]: it returns [ERR_NOT_A_BLOCK_DEVICE] when the flag
    reports a failed probe and [ERR_GET_DEVICE_UUID_FAILED] when it reports
    a successful one, because such a string cannot match the pattern. *)
Theorem checkDeviceUUID_rejects_marker (host device u : string) (v : Vars) :
  Contains u SIGNATURE_NOT_A_BLOCK_DEVICE = true ->
  load Ref_uuid v = u ->
  MatchString REEGX_DEVICE_UUID u = false /\
  exists e,
    checkDeviceUUID host device Ref_success Ref_uuid v = (v, Some e) /\
    kind e = if load_bool Ref_success v
             then GET_DEVICE_UUID_FAILED else NOT_A_BLOCK_DEVICE.
Proof.
  intros Hc Hu. pose proof (marker_never_matches u Hc) as Hm.
  split; [exact Hm|]. unfold checkDeviceUUID. rewrite Hu, Hc, Hm.
  destruct (load_bool Ref_success v); cbn [negb]; by eexists.
Qed.

End PatternProperties.

(** ** The format task as a whole *)

Section TaskProperties.

Context {Host : Type} `{!Channel Host} `{!Collaborators}.

Lemma run_steps_app {A : Type} `{!task_Step Host A} (l1 l2 : list A) :
  forall c : Ctx Host,
    run_steps (l1 ++ l2) c =
    match run_steps l1 c with
    | (c', Some e) => (c', Some e)
    | (c', None) => run_steps l2 c'
    end.
Proof.
  induction l1 as [|st l1 IH]; intros c; cbn [app run_steps]; [done|].
  destruct (Execute st c) as [c1 [e|]]; [done|]. apply IH.
Qed.

Lemma run_steps_of_step (l : list Step) :
  forall c : Ctx Host, run_steps (map of_step l) c = run_steps l c.
Proof.
  induction l as [|st l IH]; intros c; cbn [map run_steps]; [done|].
  change (Execute (of_step st) c) with (Execute st c).
  destruct (Execute st c) as [c1 [e|]]; [done|]. apply IH.
Qed.

Lemma Step_Execute_event (st : Step) (ctx : Ctx Host) :
  exists ev, trace (Step_Execute st ctx).1 = trace ctx ++ [ev] /\
    is_container_command ev = is_container_step st.
Proof.
  destruct st as [| |f| | | | | | | | | |]; cbn [Step_Execute];
    try (eexists; split; [apply run_command_trace|done]).
  unfold run_lambda. destruct (f (vars ctx)). by exists EvLambda.
Qed.

Lemma run_steps_events (l : list Step) :
  Forall (fun st => is_container_step st = false) l ->
  forall c : Ctx Host, exists evs,
    trace (run_steps l c).1 = trace c ++ evs /\
    Forall (fun e => is_container_command e = false) evs.
Proof.
  induction 1 as [|st l Hst _ IH]; intros c; cbn [run_steps].
  - exists []. by rewrite app_nil_r.
  - destruct (Step_Execute_event st c) as (ev & Hev & Hk).
    change (Execute st c) with (Step_Execute st c).
    destruct (Step_Execute st c) as [c1 [e|]]; cbn [fst] in *.
    + exists [ev]. split; [done|]. constructor; [congruence|done].
    + destruct (IH c1) as (evs & Ht & Hall). exists (ev :: evs).
      rewrite Ht, Hev, <- app_assoc. split; [done|].
      constructor; [congruence|done].
Qed.

(** The composite step always ends with an error, having issued no command
    on containers. *)
Lemma step2EditFSTab_Execute_fails (s : step2EditFSTab) (ctx : Ctx Host) :
  exists e evs,
    (Execute s ctx).2 = Some e /\
    trace (Execute s ctx).1 = trace ctx ++ evs /\
    Forall (fun ev => is_container_command ev = false) evs.
Proof.
  rewrite (step2EditFSTab_Execute_cases s ctx). cbv zeta.
  destruct (reply_err _) as [e1|].
  { eexists _, _. split; [done|]. split; [done|]. by repeat constructor. }
  destruct (reply_err _) as [e2|].
  { eexists _, _. split; [done|]. split; [done|]. by repeat constructor. }
  set (v2 := match reply_out _ with Some x => _ | None => _ end).
  assert (Hf : load_bool Ref_success v2 = false).
  { subst v2. destruct (reply_out _); by destruct (vars ctx). }
  unfold checkDeviceUUID. rewrite Hf. cbn [negb].
  destruct (Contains _ _); eexists _, _;
    (split; [done|]; split; [done|]; by repeat constructor).
Qed.

(** X4.  No execution of the task that the builder returns ends in success,
    and none issues a command of the third part of the task: the image is
    never pulled and the container is never created, filled or started.
    The composite step that edits the configuration file stands before
    them and always returns an error. *)
Theorem format_task_never_reaches_container (curveadm : CurveAdm)
    (fc : FormatConfig) (t : Task) (ctx : Ctx Host) :
  NewFormatChunkfilePoolTask curveadm fc = (Some t, None) ->
  (Task_Execute t ctx).2 <> Succeeded /\
  exists evs,
    trace (Task_Execute t ctx).1 = trace ctx ++ evs /\
    Forall (fun e => is_container_command e = false) evs.
Proof.
  intros Ht. unfold Task_Execute.
  rewrite (NewFormatChunkfilePoolTask_steps _ _ _ Ht). cbv zeta.
  set (edit := mkStep2EditFSTab _ _ _ _ _).
  match goal with
  | |- context [run_steps (?a :: ?b :: ?c :: ?d :: ?e :: ?f :: ?g :: ?rest)] =>
    change (a :: b :: c :: d :: e :: f :: g :: rest)
      with ([a; b; c; d; e; f; g] ++ rest)
  end.
  rewrite run_steps_app.
  match goal with
  | |- context [run_steps [of_step ?a; of_step ?b; of_step ?c; of_step ?d;
                           of_step ?e; of_step ?f; of_step ?g] ctx] =>
    change [of_step a; of_step b; of_step c; of_step d; of_step e; of_step f;
            of_step g] with (map of_step [a; b; c; d; e; f; g]);
    rewrite run_steps_of_step;
    destruct (run_steps_events [a; b; c; d; e; f; g]
                ltac:(by repeat constructor) ctx) as (evs & Hevs & Hall);
    destruct (run_steps [a; b; c; d; e; f; g] ctx) as [c7 [e7|]]
  end; cbn [fst] in Hevs.
  - split; [by destruct (kind e7)|]. by exists evs.
  - cbn [run_steps].
    change (Execute (of_step2EditFSTab edit) c7) with (Execute edit c7).
    destruct (step2EditFSTab_Execute_fails edit c7)
      as (e & evs2 & He & Ht2 & Hall2).
    destruct (Execute edit c7) as [c8 err]. cbn [fst snd] in *. subst err.
    cbv beta iota zeta. cbn [fst snd].
    split; [by destruct (kind e)|].
    exists (evs ++ evs2). rewrite Ht2, Hevs, <- app_assoc. split; [done|].
    by apply Forall_app.
Qed.


Lemma AnyStep_Execute_extends (st : AnyStep) (c : Ctx Host) :
  exists evs, trace (Execute st c).1 = trace c ++ evs.
Proof.
  destruct st as [st|s].
  - destruct (Step_Execute_event st c) as (ev & Hev & _). by exists [ev].
  - destruct (step2EditFSTab_Execute_fails s c) as (_ & evs & _ & Hevs & _).
    by exists evs.
Qed.

Lemma run_steps_extends (l : list AnyStep) :
  forall c : Ctx Host, exists evs, trace (run_steps l c).1 = trace c ++ evs.
Proof.
  induction l as [|st l IH]; intros c; cbn [run_steps].
  - exists []. by rewrite app_nil_r.
  - destruct (AnyStep_Execute_extends st c) as [evs Hevs].
    destruct (Execute st c) as [c1 [e|]]; cbn [fst] in *; [by exists evs|].
    destruct (IH c1) as [evs' Hevs']. exists (evs ++ evs').
    by rewrite Hevs', Hevs, <- app_assoc.
Qed.

(** X5.  When the list-containers step returns an empty identifier, the skip
    check lets the task continue: the next thing the task does is to probe
    the UUID of the device. *)
Theorem skipFormat_continues_on_empty (curveadm : CurveAdm)
    (fc : FormatConfig) (t : Task) (ctx : Ctx Host) :
  let listing :=
    CmdListContainers true "'{{.ID}}'" true
      ("name=" +:+ device2ContainerName (GetDevice fc)) in
  NewFormatChunkfilePoolTask curveadm fc = (Some t, None) ->
  (exec listing (remote ctx)).2 = mkReply (Some EmptyString) None ->
  exists evs,
    trace (Task_Execute t ctx).1 =
    trace ctx ++
    [ EvRemote listing; EvLambda;
      EvRemote (CmdBlockId (GetDevice fc) "value" "UUID") ] ++ evs.
Proof.
  intros listing Ht Hl. unfold Task_Execute.
  rewrite (NewFormatChunkfilePoolTask_steps _ _ _ Ht). cbv zeta.
  match goal with
  | |- context [run_steps (?a :: ?b :: ?c :: ?rest)] =>
    change (a :: b :: c :: rest) with ([a; b; c] ++ rest)
  end.
  rewrite run_steps_app.
  assert (Hthree : exists c3 err,
    run_steps
      [ of_step (ListContainers true "'{{.ID}}'" true
                   ("name=" +:+ device2ContainerName (GetDevice fc))
                   Ref_oldContainerId);
        of_step (Lambda (skipFormat Ref_oldContainerId));
        of_step (BlockId (GetDevice fc) "value" "UUID" Ref_oldUUID) ] ctx
    = (c3, err) /\
    trace c3 = trace ctx ++
      [ EvRemote listing; EvLambda;
        EvRemote (CmdBlockId (GetDevice fc) "value" "UUID") ]).
  { cbn [run_steps].
    repeat (unfold Execute, AnyStep_task_Step, Step_task_Step;
            cbn [AnyStep_Execute Step_Execute]).
    unfold run_command at 1. fold listing.
    destruct (exec listing (remote ctx)) as [h r].
    cbn [snd] in Hl. subst r. cbn [reply_out reply_err].
    unfold run_lambda, skipFormat. cbn [vars set_vars set_remote log].
    assert (Hld : load Ref_oldContainerId
                    (store Ref_oldContainerId EmptyString (vars ctx))
                  = EmptyString) by (by destruct (vars ctx)).
    rewrite Hld. cbn [len String.length Nat.ltb Nat.leb].
    unfold run_command.
    destruct (exec (CmdBlockId (GetDevice fc) "value" "UUID") _) as [h3 r3].
    destruct (reply_err r3); eexists _, _; (split; [reflexivity|]);
      cbn [trace set_vars set_remote log]; by rewrite <- !app_assoc. }
  destruct Hthree as (c3 & err & -> & Hc3).
  destruct err as [e|]; cbn [fst]; [by exists []; rewrite app_nil_r|].
  match goal with
  | |- context [run_steps ?rest c3] =>
    destruct (run_steps_extends rest c3) as [evs Hevs];
    destruct (run_steps rest c3) as [c' err']
  end.
  cbn [fst] in *. exists evs. by rewrite Hevs, Hc3, <- app_assoc.
Qed.

End TaskProperties.

(** ** The composite step and its variables *)

Section CompositeProperties.

Context {Host : Type} `{!Channel Host} `{!Collaborators}.

Lemma load_store_eq (r : Ref) (x : string) (v : Vars) :
  load r (store r x v) = x.
Proof. by destruct r, v. Qed.

Lemma load_store_ne (r r' : Ref) (x : string) (v : Vars) :
  r <> r' -> load r' (store r x v) = load r' v.
Proof. by destruct r, r', v. Qed.

(** X6.  The composite step leaves the variables of the builder alone: the
    two container identifiers, the previous UUID and the script are after
    it what they were before.  Its own field [uuid] holds what the probe
    wrote, when the backup succeeded and the probe wrote something, and is
    unchanged otherwise.  The date of the context is unchanged. *)
Theorem step2EditFSTab_Execute_frame (s : step2EditFSTab) (ctx : Ctx Host)
    (r : Ref) :
  let a1 := exec (backup_command (today ctx)) (remote ctx) in
  let a2 := exec (probe_command s) a1.1 in
  let after := (Execute s ctx).1 in
  r ∈ [Ref_oldContainerId; Ref_containerId; Ref_oldUUID; Ref_formatScript] ->
  load r (vars after) = load r (vars ctx) /\
  today after = today ctx /\
  load Ref_uuid (vars after) =
    match reply_err a1.2, reply_out a2.2 with
    | None, Some x => x
    | _, _ => load Ref_uuid (vars ctx)
    end.
Proof.
  intros a1 a2 after Hr. subst after.
  rewrite (step2EditFSTab_Execute_cases s ctx). cbv zeta. fold a1 a2.
  assert (Hcases : r = Ref_oldContainerId \/ r = Ref_containerId \/
                   r = Ref_oldUUID \/ r = Ref_formatScript).
  { set_unfold in Hr. tauto. }
  destruct (reply_err a1.2) as [e1|]; [|destruct (reply_err a2.2) as [e2|]];
    cbn [fst vars today]; destruct (reply_out a2.2) as [x|];
    destruct (vars ctx); destruct Hcases as [-> | [-> | [-> | ->]]]; done.
Qed.

(** X7.  The sub-steps that edit the configuration file never delete with
    an empty UUID: whatever the variables hold and whatever the host
    answers, the sub-steps from the expression lambda on never issue the
    expression [/UUID=/d], which would remove every record of the file.
    The deletion is in the list only when the previous UUID is not empty. *)
Theorem step2EditFSTab_never_deletes_all (s : step2EditFSTab)
    (ctx : Ctx Host) :
  let r := run_steps (drop 3 (step2EditFSTab_steps s ctx)) ctx in
  exists evs,
    trace r.1 = trace ctx ++ evs /\
    forall files inPlace, EvRemote (CmdSed files "/UUID=/d" inPlace) ∉ evs.
Proof.
  intros r. subst r. unfold step2EditFSTab_steps. cbn [app drop run_steps].
  unfold Execute at 1, Step_task_Step. cbn [Step_Execute].
  unfold run_lambda, expression.
  set (old := load (oldUUID s) (vars ctx)).
  set (v1 := store Ref_express2del ("/UUID=" +:+ old +:+ "/d") (vars ctx)).
  set (v2 := store Ref_express2add _ v1).
  assert (Ha : exists text, load Ref_express2add v2 = "$ a " +:+ text).
  { exists ("UUID=" +:+ load Ref_uuid v1 +:+ "  " +:+ mountPoint s
            +:+ "  ext4  rw,errors=remount-ro  0  0  # " +:+ WARNING_EDIT).
    subst v2. by rewrite load_store_eq. }
  assert (Hd : load Ref_express2del v2 = "/UUID=" +:+ old +:+ "/d")
    by (subst v2 v1; by destruct (vars ctx)).
  destruct Ha as [text Ha]. clearbody v2.
  assert (Hadd : forall files inPlace,
            EvRemote (CmdSed [GetFSTabPath] ("$ a " +:+ text) true)
            <> EvRemote (CmdSed files "/UUID=/d" inPlace)) by done.
  destruct (0 <? len old)%nat eqn:Hlen; destruct (skipAdd s);
    cbn [negb app run_steps];
    repeat (unfold Execute at 1, Step_task_Step; cbn [Step_Execute];
            unfold run_command at 1; cbn [vars set_vars set_remote log remote];
            rewrite ?Hd, ?Ha;
            match goal with
            | |- context [exec ?c ?h] =>
              destruct (exec c h) as [? [? [?|]]]; cbn [reply_err reply_out]
            end);
    eexists; (split; [cbn [fst trace set_vars set_remote log];
                      rewrite <- ?app_assoc; reflexivity|]);
    intros files inPlace Hin;
    repeat (apply elem_of_cons in Hin as [Hin|Hin]);
    try (by apply not_elem_of_nil in Hin); try discriminate Hin;
    try (by apply (Hadd files inPlace)).
  all: injection Hin as _ Hexp _.
  all: apply Nat.ltb_lt in Hlen.
  all: apply (f_equal String.length) in Hexp.
  all: rewrite !length_append in Hexp; cbn in Hexp; unfold len in Hlen; lia.
Qed.

End CompositeProperties.

(** ** The composite step on a host with files *)

Section MoreFileProperties.

Context `{!Collaborators}.

Lemma step2EditFSTab_Execute_today {Host : Type} `{!Channel Host}
    (s : step2EditFSTab) (ctx : Ctx Host) :
  today (Execute s ctx).1 = today ctx.
Proof.
  rewrite (step2EditFSTab_Execute_cases s ctx). cbv zeta.
  destruct (reply_err _); [done|]. by destruct (reply_err _).
Qed.

(** The files that a no-clobber copy leaves, as a function of the files it
    finds. *)
Lemma copy_no_clobber_files (src dst : string) (h : FsHost.t) :
  FsHost.files (exec (CmdCopyFile src dst true) h).1 =
  match FsHost.files h !! src, FsHost.files h !! dst with
  | Some content, None => <[dst := content]> (FsHost.files h)
  | _, _ => FsHost.files h
  end.
Proof.
  unfold exec, FsHost.channel, FsHost.exec_fs.
  destruct (FsHost.files h !! src) as [content|]; [|done].
  destruct (FsHost.files h !! dst) as [existing|] eqn:Hd.
  - by rewrite bool_decide_eq_true_2.
  - by rewrite bool_decide_eq_false_2 by (by intros [? ?]).
Qed.

(** X8.  On a host with files, a second execution of the composite step on
    the same day changes no file: the backup made by the first execution is
    kept, and the configuration file is as it was. *)
Theorem step2EditFSTab_Execute_twice (s s' : step2EditFSTab)
    (ctx : Ctx FsHost.t) :
  let first := (Execute s ctx).1 in
  let second := (Execute s' first).1 in
  today first = today ctx /\
  FsHost.files (remote second) = FsHost.files (remote first) /\
  FsHost.files (remote second) !! GetFSTabPath =
    FsHost.files (remote ctx) !! GetFSTabPath.
Proof.
  intros first second. subst second.
  assert (Hday : today first = today ctx)
    by apply step2EditFSTab_Execute_today.
  split; [exact Hday|].
  assert (Hsame : FsHost.files (remote (Execute s' first).1) =
                  FsHost.files (remote first)).
  { rewrite step2EditFSTab_Execute_files, Hday.
    unfold backup_command. rewrite copy_no_clobber_files.
    subst first. rewrite step2EditFSTab_Execute_files.
    unfold backup_command. rewrite copy_no_clobber_files.
    set (F := FsHost.files (remote ctx)).
    set (dst := backup_path (today ctx)).
    destruct (F !! GetFSTabPath) as [content|] eqn:Hsrc.
    - destruct (F !! dst) as [existing|] eqn:Hdst.
      + by rewrite Hsrc, Hdst.
      + rewrite lookup_insert_ne by apply backup_path_fresh.
        by rewrite Hsrc, lookup_insert_eq.
    - by rewrite Hsrc. }
  split; [exact Hsame|]. rewrite Hsame. subst first.
  apply step2EditFSTab_Execute_keeps_fstab.
Qed.

(** X9.  The deletion expression undoes the insertion expression.  On a
    file with at least one line and no record of a UUID, the sub-steps that
    insert the record of that UUID followed by the sub-steps of an edit that
    has [skipAdd] set and that UUID as its previous UUID leave the file as
    it was.  The UUID is made of letters, digits and dashes and the mount
    point of plain path characters, so that sed reads both expressions
    literally. *)
Theorem step2EditFSTab_delete_undoes_insert (s s' : step2EditFSTab)
    (ctx : Ctx FsHost.t) (u : string) (lines : list string) :
  let inserted := (run_steps (drop 3 (step2EditFSTab_steps s ctx)) ctx).1 in
  let removed :=
    (run_steps (drop 3 (step2EditFSTab_steps s' inserted)) inserted).1 in
  load (oldUUID s) (vars ctx) = EmptyString ->
  skipAdd s = false ->
  load Ref_uuid (vars ctx) = u ->
  (0 < len u)%nat ->
  FsHost.all_chars FsHost.literal_char u = true ->
  FsHost.all_chars FsHost.text_char (mountPoint s) = true ->
  skipAdd s' = true ->
  load (oldUUID s') (vars inserted) = u ->
  FsHost.files (remote ctx) !! GetFSTabPath = Some lines ->
  lines <> [] ->
  Forall (fun l => Contains l ("UUID=" +:+ u) = false) lines ->
  FsHost.files (remote inserted) !! GetFSTabPath =
    Some (lines ++ [ "UUID=" +:+ u +:+ "  " +:+ mountPoint s
                     +:+ "  ext4  rw,errors=remount-ro  0  0  # "
                     +:+ WARNING_EDIT ]) /\
  FsHost.files (remote removed) !! GetFSTabPath = Some lines.
Proof.
  intros inserted removed Hold Hskip Hu Hlen Hlit Hmp Hskip' Hold' Hfile Hne
    Hall.
  set (record := "UUID=" +:+ u +:+ "  " +:+ mountPoint s
                 +:+ "  ext4  rw,errors=remount-ro  0  0  # "
                 +:+ WARNING_EDIT).
  assert (Hins : FsHost.files (remote inserted) !! GetFSTabPath =
                 Some (lines ++ [record])).
  { subst inserted. unfold step2EditFSTab_steps. rewrite Hold, Hskip.
    cbn [len String.length Nat.ltb Nat.leb app drop negb run_steps].
    unfold Execute at 1, Step_task_Step. cbn [Step_Execute].
    unfold run_lambda, expression. rewrite Hold.
    set (v1 := store Ref_express2del _ (vars ctx)).
    assert (Hv1 : load Ref_uuid v1 = u).
    { subst v1. rewrite load_store_ne by done. exact Hu. }
    rewrite Hv1.
    change ("$ a UUID=" +:+ u +:+ "  " +:+ mountPoint s
            +:+ "  ext4  rw,errors=remount-ro  0  0  # " +:+ WARNING_EDIT)
      with ("$ a " +:+ record).
    unfold Execute at 1, Step_task_Step. cbn [Step_Execute].
    unfold run_command at 1. cbn [vars set_vars log remote].
    rewrite load_store_eq.
    unfold exec at 1, FsHost.channel. cbn [FsHost.exec_fs].
    rewrite parse_sed_append by (by apply literal_text_record).
    cbn [foldr forallb FsHost.sed_apply reply_err reply_out]. rewrite Hfile.
    rewrite bool_decide_eq_true_2 by eauto. cbn [andb fst].
    cbn [remote set_vars set_remote FsHost.with_files FsHost.files].
    rewrite lookup_alter_eq, Hfile. cbn [fmap option_fmap option_map].
    by destruct lines. }
  split; [exact Hins|].
  subst removed. unfold step2EditFSTab_steps. rewrite Hold', Hskip'.
  apply Nat.ltb_lt in Hlen. rewrite Hlen.
  cbn [app drop negb run_steps].
  unfold Execute at 1, Step_task_Step. cbn [Step_Execute].
  unfold run_lambda, expression. rewrite Hold'.
  set (v1 := store Ref_express2del ("/UUID=" +:+ u +:+ "/d") (vars inserted)).
  set (v2 := store Ref_express2add _ v1).
  assert (Hd : load Ref_express2del v2 = "/UUID=" +:+ u +:+ "/d").
  { subst v2 v1. rewrite load_store_ne by done. apply load_store_eq. }
  clearbody v2.
  unfold Execute at 1, Step_task_Step. cbn [Step_Execute].
  unfold run_command at 1. cbn [vars set_vars log remote]. rewrite Hd.
  unfold exec at 1, FsHost.channel. cbn [FsHost.exec_fs].
  change ("/UUID=" +:+ u +:+ "/d") with ("/" +:+ ("UUID=" +:+ u) +:+ "/d")
    at 1.
  rewrite parse_sed_delete by (by apply literal_re_key).
  cbn [foldr forallb FsHost.sed_apply reply_err reply_out]. rewrite Hins.
  rewrite bool_decide_eq_true_2 by eauto. cbn [andb fst].
  cbn [remote set_vars set_remote FsHost.with_files FsHost.files].
  rewrite lookup_alter_eq, Hins.
  cbn [fmap option_fmap option_map FsHost.sed_apply].
  f_equal. rewrite filter_app.
  assert (Hkeep : filter (fun l => Contains l ("UUID=" +:+ u) = false) lines
                  = lines).
  { clear -Hall. induction Hall as [|l lines Hl _ IH]; [done|].
    by rewrite filter_cons_True, IH. }
  rewrite Hkeep.
  rewrite filter_cons_False, filter_nil, app_nil_r; [done|].
  change record with (("UUID=" +:+ u) +:+
    ("  " +:+ mountPoint s +:+ "  ext4  rw,errors=remount-ro  0  0  # "
     +:+ WARNING_EDIT)).
  by rewrite Contains_append.
Qed.

(** X10.  Re-formatting replaces the record.  When the sub-steps from the
    expression lambda on are run with a previous UUID and a new one, both
    made of letters, digits and dashes, and a mount point of plain path
    characters, on a file that has a line which is no record of the previous
    UUID, the file afterwards holds the lines that were no record of the
    previous UUID, in their order, followed by the record of the new UUID;
    no other file is changed. *)
Theorem step2EditFSTab_replaces_record (s : step2EditFSTab)
    (ctx : Ctx FsHost.t) (old new : string) (lines : list string) :
  let record :=
    "UUID=" +:+ new +:+ "  " +:+ mountPoint s
    +:+ "  ext4  rw,errors=remount-ro  0  0  # " +:+ WARNING_EDIT in
  let r := run_steps (drop 3 (step2EditFSTab_steps s ctx)) ctx in
  load (oldUUID s) (vars ctx) = old ->
  load Ref_uuid (vars ctx) = new ->
  (0 < len old)%nat ->
  skipAdd s = false ->
  FsHost.all_chars FsHost.literal_char old = true ->
  FsHost.all_chars FsHost.literal_char new = true ->
  FsHost.all_chars FsHost.text_char (mountPoint s) = true ->
  FsHost.files (remote ctx) !! GetFSTabPath = Some lines ->
  (exists l, l ∈ lines /\ Contains l ("UUID=" +:+ old) = false) ->
  r.2 = None /\
  FsHost.files (remote r.1) !! GetFSTabPath =
    Some (filter (fun l => Contains l ("UUID=" +:+ old) = false) lines
          ++ [record]) /\
  (forall p, p <> GetFSTabPath ->
     FsHost.files (remote r.1) !! p = FsHost.files (remote ctx) !! p).
Proof.
  intros record r Hold Hnew Hlen Hskip Hlo Hln Hmp Hfile [l0 [Hin Hl0]].
  set (kept := filter (fun l => Contains l ("UUID=" +:+ old) = false) lines).
  assert (Hkept : kept <> []).
  { intros Hnil. assert (l0 ∈ kept) as Hk by (by apply list_elem_of_filter).
    rewrite Hnil in Hk. by apply not_elem_of_nil in Hk. }
  assert (Hrun : exists c', r = (c', None) /\
    FsHost.files (remote c') =
      alter (FsHost.sed_apply (FsHost.SedAppendLast record)) GetFSTabPath
        (alter (FsHost.sed_apply (FsHost.SedDelete ("UUID=" +:+ old)))
           GetFSTabPath (FsHost.files (remote ctx)))).
  { subst r. unfold step2EditFSTab_steps.
    rewrite Hold, Hskip. apply Nat.ltb_lt in Hlen. rewrite Hlen.
    cbn [app drop negb run_steps].
    unfold Execute at 1, Step_task_Step. cbn [Step_Execute].
    unfold run_lambda, expression. rewrite Hold.
    set (v1 := store Ref_express2del ("/UUID=" +:+ old +:+ "/d") (vars ctx)).
    assert (Hv1 : load Ref_uuid v1 = new).
    { subst v1. rewrite load_store_ne by done. exact Hnew. }
    rewrite Hv1.
    change ("$ a UUID=" +:+ new +:+ "  " +:+ mountPoint s
            +:+ "  ext4  rw,errors=remount-ro  0  0  # " +:+ WARNING_EDIT)
      with ("$ a " +:+ record).
    set (v2 := store Ref_express2add ("$ a " +:+ record) v1).
    assert (Hd : load Ref_express2del v2 = "/UUID=" +:+ old +:+ "/d").
    { subst v2 v1. rewrite load_store_ne by done. apply load_store_eq. }
    assert (Ha : load Ref_express2add v2 = "$ a " +:+ record)
      by apply load_store_eq.
    clearbody v2.
    unfold Execute at 1, Step_task_Step. cbn [Step_Execute].
    unfold run_command at 1. cbn [vars set_vars log remote]. rewrite Hd.
    unfold exec at 1, FsHost.channel. cbn [FsHost.exec_fs].
    change ("/UUID=" +:+ old +:+ "/d")
      with ("/" +:+ ("UUID=" +:+ old) +:+ "/d") at 1.
    rewrite parse_sed_delete by (by apply literal_re_key).
    cbn [foldr forallb FsHost.sed_apply reply_err reply_out].
    rewrite Hfile.
    rewrite bool_decide_eq_true_2 by eauto. cbn [andb].
    unfold Execute at 1, Step_task_Step. cbn [Step_Execute].
    unfold run_command at 1.
    cbn [vars set_vars set_remote log remote FsHost.with_files FsHost.files].
    rewrite Ha. unfold exec at 1, FsHost.channel. cbn [FsHost.exec_fs].
    rewrite parse_sed_append by (by apply literal_text_record).
    cbn [foldr forallb FsHost.sed_apply reply_err reply_out FsHost.files
         FsHost.with_files].
    rewrite lookup_alter_eq, Hfile. cbn [fmap option_fmap option_map].
    rewrite bool_decide_eq_true_2 by eauto. cbn [andb].
    eexists. split; [reflexivity|]. done. }
  destruct Hrun as (c' & -> & Hf). cbn [fst snd]. rewrite Hf.
  split; [done|]. split.
  - rewrite lookup_alter_eq, lookup_alter_eq, Hfile.
    cbn [fmap option_fmap option_map FsHost.sed_apply]. fold kept.
    by destruct kept.
  - intros p Hp. by rewrite !lookup_alter_ne.
Qed.

End MoreFileProperties.

(** ** More on the target script *)

Section MoreTargetScriptProperties.

Import TargetScript.

Lemma scan_sound (show : nat -> nat) :
  forall fuel i calls k, scan show fuel i = Some (calls, k) ->
    i <= k /\ show k <> 0 /\ (forall j, i <= j < k -> show j = 0) /\
    calls = map tgtadm_target_show (seq i (S (k - i))).
Proof.
  induction fuel as [|fuel IH]; intros i calls k Hs; [done|].
  cbn [scan] in Hs. destruct (show i =? 0) eqn:Hi.
  - destruct (scan show fuel (S i)) as [[calls' k']|] eqn:Hrec; [|done].
    injection Hs as <- <-. apply IH in Hrec as (Hle & Hk & Hlow & ->).
    apply Nat.eqb_eq in Hi. split; [lia|]. split; [done|]. split.
    + intros j Hj. destruct (decide (j = i)) as [->|?]; [done|].
      apply Hlow. lia.
    + replace (S (k' - i)) with (S (S (k' - S i))) by lia. done.
  - injection Hs as <- <-. apply Nat.eqb_neq in Hi.
    split; [lia|]. split; [done|]. split; [intros j Hj; lia|].
    by rewrite Nat.sub_diag.
Qed.

(** The script, case by case. *)
Lemma TARGET_cases (tools : Tools) (fuel : nat)
    (g_user g_volume g_create g_size : string) :
  let created := curve_ops_tool tools g_user g_volume g_size in
  let setup :=
    [mkdir_p "/curvebs/nebd/data/lock"; touch "/etc/curve/curvetab"] in
  let create := curve_ops_tool_create g_user g_volume g_size in
  let fatal :=
    create_requested tools g_create && negb (created.2 =? 0)
    && negb (String.eqb (command_substitution created.1) TOLERATED) in
  TARGET tools fuel g_user g_volume g_create g_size =
  if fatal then Some (setup ++ [create], Exit 1)
  else match scan (tgtadm_show tools) fuel 1 with
       | None => None
       | Some (shows, tid) =>
         Some ((setup ++ if create_requested tools g_create
                         then [create] else [])
               ++ shows ++ registration tools g_user g_volume tid,
               Registered tid)
       end.
Proof.
  intros created setup create fatal. subst fatal. unfold TARGET.
  fold created. destruct (create_requested tools g_create); cbn [andb].
  - destruct created as [stdout status]. cbn [fst snd].
    destruct (negb (status =? 0) && negb _); [done|].
    by destruct (scan _ _ _) as [[shows tid]|].
  - rewrite app_nil_r. by destruct (scan _ _ _) as [[shows tid]|].
Qed.

(** X11.  When the third argument is a single word other than [true], the
    script never runs the create command: it goes straight to the scan and
    registers the target under the smallest positive identifier that is not
    bound. *)
Theorem TARGET_without_create (tools : Tools)
    (g_user g_volume g_create g_size : string) (bound : gset nat)
    (fuel : nat) :
  single_word g_create = true ->
  g_create <> "true" ->
  (forall i, tgtadm_show tools i = 0 <-> i ∈ bound) ->
  size bound < fuel ->
  exists tid,
    TARGET tools fuel g_user g_volume g_create g_size =
      Some ([mkdir_p "/curvebs/nebd/data/lock"; touch "/etc/curve/curvetab"]
            ++ map tgtadm_target_show (seq 1 tid)
            ++ registration tools g_user g_volume tid, Registered tid) /\
    1 <= tid /\ (tid ∉ bound) /\ (forall j, 1 <= j < tid -> j ∈ bound).
Proof.
  intros Hw Hc Hshow Hfuel.
  destruct (least_unbound bound) as (k & Hk & Hnot & Hlow).
  assert (Hscan : scan (tgtadm_show tools) fuel 1 =
                  Some (map tgtadm_target_show (seq 1 (S (k - 1))), k)).
  { apply scan_first_failure; [by rewrite Hshow|lia| |lia].
    intros j Hj. apply Hshow, Hlow. lia. }
  replace (S (k - 1)) with k in Hscan by lia.
  exists k. rewrite TARGET_cases. cbv zeta.
  unfold create_requested. rewrite Hw.
  apply String.eqb_neq in Hc. rewrite Hc. cbn [andb]. rewrite Hscan.
  rewrite app_nil_r. split; [done|]. split; [lia|]. done.
Qed.

Lemma strip_trailing_newlines_suffix (s : string) :
  exists n, s = strip_trailing_newlines s +:+ newlines n.
Proof.
  induction s as [|c s [n IH]].
  - by exists 0.
  - cbn [strip_trailing_newlines].
    destruct (Ascii.eqb c "010" &&
              String.eqb (strip_trailing_newlines s) EmptyString) eqn:Hb.
    + apply andb_true_iff in Hb as [Hc He].
      apply Ascii.eqb_eq in Hc as ->. apply String.eqb_eq in He.
      rewrite He in IH. exists (S n). by rewrite IH at 1.
    + exists n. change (String c (strip_trailing_newlines s) +:+ newlines n)
        with (String c (strip_trailing_newlines s +:+ newlines n)).
      by rewrite <- IH.
Qed.

Lemma strip_trailing_newlines_newlines (n : nat) :
  strip_trailing_newlines (newlines n) = EmptyString.
Proof.
  induction n as [|n IH]; [done|].
  cbn [newlines strip_trailing_newlines]. by rewrite IH.
Qed.

Lemma strip_trailing_newlines_append (t : string) (n : nat) :
  strip_trailing_newlines t = t ->
  strip_trailing_newlines (t +:+ newlines n) = t.
Proof.
  induction t as [|c t IH]; intros Ht.
  - apply strip_trailing_newlines_newlines.
  - change (String c t +:+ newlines n) with (String c (t +:+ newlines n)).
    cbn [strip_trailing_newlines] in *.
    destruct (Ascii.eqb c "010" &&
              String.eqb (strip_trailing_newlines t) EmptyString) eqn:Hb;
      [done|].
    injection Ht as Ht. rewrite (IH Ht). rewrite Ht in Hb. by rewrite Hb.
Qed.

(** X12.  In terms of what the create command prints: with the third
    argument [true] and a create command that fails, the script goes on
    exactly when the standard output, NUL bytes apart, is the message
    [CreateFile fail with errCode: 101] followed by any number of line
    feeds; with any other output it exits with status 1 right after the
    create command. *)
Theorem TARGET_tolerates_trailing_newlines (tools : Tools) (fuel : nat)
    (g_user g_volume g_size : string) :
  let created := curve_ops_tool tools g_user g_volume g_size in
  let run := TARGET tools fuel g_user g_volume "true" g_size in
  let before :=
    [ mkdir_p "/curvebs/nebd/data/lock"; touch "/etc/curve/curvetab";
      curve_ops_tool_create g_user g_volume g_size ] in
  created.2 <> 0 ->
  (command_substitution created.1 = TOLERATED <->
   exists n, remove_nul created.1 = TOLERATED +:+ newlines n) /\
  (run = Some (before, Exit 1) <->
   ~ exists n, remove_nul created.1 = TOLERATED +:+ newlines n).
Proof.
  intros created run before Hst.
  assert (Hiff : command_substitution created.1 = TOLERATED <->
                 exists n, remove_nul created.1 = TOLERATED +:+ newlines n).
  { unfold command_substitution. split.
    - intros Heq.
      destruct (strip_trailing_newlines_suffix (remove_nul created.1))
        as [n Hn].
      exists n. by rewrite Heq in Hn.
    - intros [n ->]. by apply strip_trailing_newlines_append. }
  split; [exact Hiff|]. rewrite <- Hiff.
  subst run. rewrite TARGET_cases. cbv zeta. fold created.
  change (create_requested tools "true") with true. cbn [andb].
  apply Nat.eqb_neq in Hst. rewrite Hst. cbn [negb andb].
  destruct (String.eqb_spec (command_substitution created.1) TOLERATED)
    as [Heq|Hne]; cbn [negb].
  - split; [|done]. destruct (scan _ _ _) as [[shows tid]|]; done.
  - done.
Qed.

(** X13.  The script does not look for a target of the same name.  When a
    first run has registered a target and that target is bound afterwards,
    a second run with the same user and volume in the same month, whose
    create command, if it runs, succeeds or prints the tolerated message,
    registers a second target, under the same name and over the same backing
    store, with a greater identifier; one more iteration of the scan than
    there were bound targets is enough for it. *)
Theorem TARGET_twice (tools tools' : Tools) (fuel fuel' : nat)
    (g_user g_volume g_create g_size : string) (bound : gset nat)
    (calls : list Call) (tid : nat) :
  let g_image := "cbd:pool/" +:+ g_volume +:+ "_" +:+ g_user +:+ "_" in
  let name :=
    "iqn." +:+ date tools +:+ ".com.opencurve:curve."
    +:+ md5sum tools g_image in
  let created' := curve_ops_tool tools' g_user g_volume g_size in
  (forall i, tgtadm_show tools i = 0 <-> i ∈ bound) ->
  (forall i, tgtadm_show tools' i = 0 <-> i ∈ bound ∪ {[tid]}) ->
  date tools' = date tools ->
  md5sum tools' g_image = md5sum tools g_image ->
  TARGET tools fuel g_user g_volume g_create g_size
    = Some (calls, Registered tid) ->
  (create_requested tools' g_create = true ->
   created'.2 = 0 \/ command_substitution created'.1 = TOLERATED) ->
  size bound + 1 < fuel' ->
  exists calls' tid',
    TARGET tools' fuel' g_user g_volume g_create g_size
      = Some (calls', Registered tid') /\
    tid < tid' /\
    tgtadm_target_new tid name ∈ calls /\
    tgtadm_target_new tid' name ∈ calls' /\
    tgtadm_logicalunit_new tid g_image ∈ calls /\
    tgtadm_logicalunit_new tid' g_image ∈ calls'.
Proof.
  intros g_image name created' Hshow Hshow' Hdate Hmd5 Hrun Hcreate Hfuel.
  rewrite TARGET_cases in Hrun. cbv zeta in Hrun.
  destruct (_ && _ && _) in Hrun; [done|].
  destruct (scan (tgtadm_show tools) fuel 1) as [[shows k]|] eqn:Hs; [|done].
  injection Hrun as <- ->.
  apply scan_sound in Hs as (Hle & Hk & Hlow & _).
  assert (Hout : tid ∉ bound) by (by rewrite <- Hshow).
  assert (Hsize : size (bound ∪ {[tid]}) = size bound + 1).
  { rewrite size_union by set_solver. by rewrite size_singleton. }
  destruct (least_unbound (bound ∪ {[tid]})) as (k' & Hk' & Hnot' & Hlow').
  assert (Hscan : scan (tgtadm_show tools') fuel' 1 =
                  Some (map tgtadm_target_show (seq 1 (S (k' - 1))), k')).
  { apply scan_first_failure; [by rewrite Hshow'|lia| |lia].
    intros j Hj. apply Hshow', Hlow'. lia. }
  assert (Hgo : create_requested tools' g_create && negb (created'.2 =? 0)
                && negb (String.eqb (command_substitution created'.1)
                           TOLERATED) = false).
  { destruct (create_requested tools' g_create); [|done].
    destruct (Hcreate eq_refl) as [-> | ->]; [done|].
    rewrite String.eqb_refl. by rewrite andb_false_r. }
  eexists _, k'. split.
  { rewrite TARGET_cases. cbv zeta. fold created'. rewrite Hgo, Hscan.
    reflexivity. }
  split.
  - destruct (decide (tid < k')) as [|Hge]; [done|]. exfalso.
    apply Hnot'. destruct (decide (k' = tid)) as [->|Hne];
      [by apply elem_of_union_r, elem_of_singleton|].
    apply elem_of_union_l, Hshow, Hlow. lia.
  - unfold registration. fold g_image. rewrite Hdate, Hmd5. fold name.
    split_and!; try (do 2 apply list_elem_of_further);
      apply elem_of_app; right; apply elem_of_app; right;
      repeat first [apply list_elem_of_here|apply list_elem_of_further].
Qed.

End MoreTargetScriptProperties.

(** * Further examples *)

Module MoreExamples.

Import Demo.

(** X1 at [odd_uuid]: it is grouped, since the validation accepts it. *)
Lemma odd_uuid_is_grouped :
  let v := mkVars EmptyString EmptyString EmptyString EmptyString odd_uuid
             true EmptyString EmptyString in
  load_bool Ref_success v = true /\
  (checkDeviceUUID "node1" "/dev/sdb" Ref_success Ref_uuid v).2 = None /\
  grouped_8_4_4_4_12 (runes odd_uuid).
Proof.
  intros v. split; [reflexivity|]. split; [reflexivity|].
  apply (checkDeviceUUID_accepts_grouped "node1" "/dev/sdb" v eq_refl).
  reflexivity.
Defined.

(** X2 at [good_uuid]. *)
Lemma good_uuid_is_accepted :
  let v := mkVars EmptyString EmptyString EmptyString EmptyString good_uuid
             true EmptyString EmptyString in
  canonical_uuid good_uuid = true /\
  load_bool Ref_success v = true /\
  checkDeviceUUID "node1" "/dev/sdb" Ref_success Ref_uuid v = (v, None).
Proof.
  intros v. split; [reflexivity|]. split; [reflexivity|].
  exact (proj2 (checkDeviceUUID_accepts_canonical "node1" "/dev/sdb" good_uuid
                  v eq_refl eq_refl eq_refl)).
Defined.

(** X3 at the output of a probe of something that is no block device. *)
Lemma marker_output_never_matches :
  let v := mkVars EmptyString EmptyString EmptyString EmptyString
             marker_output true EmptyString EmptyString in
  Contains marker_output SIGNATURE_NOT_A_BLOCK_DEVICE = true /\
  MatchString REEGX_DEVICE_UUID marker_output = false /\
  kind <$> (checkDeviceUUID "node1" "/dev/sdb" Ref_success Ref_uuid v).2
    = Some GET_DEVICE_UUID_FAILED.
Proof.
  intros v. split; [reflexivity|].
  destruct (checkDeviceUUID_rejects_marker "node1" "/dev/sdb" marker_output v
              eq_refl eq_refl) as (Hm & e & He & Hk).
  split; [exact Hm|]. rewrite He. cbn. by rewrite Hk.
Defined.

(** X4 at the demo host, with a probe that answers a canonical UUID and no
    container under the derived name. *)
Lemma demo_task_does_not_succeed :
  NewFormatChunkfilePoolTask curveadm fc = (Some task, None) /\
  (Task_Execute task (ctx_with good_uuid EmptyString)).2 <> Succeeded.
Proof.
  split; [reflexivity|].
  exact (proj1 (format_task_never_reaches_container curveadm fc task
                  (ctx_with good_uuid EmptyString) eq_refl)).
Defined.

(** X5 at the demo host, with no container under the derived name. *)
Lemma no_container_probes_device :
  NewFormatChunkfilePoolTask curveadm fc = (Some task, None) /\
  exists evs,
    trace (Task_Execute task (ctx_with good_uuid EmptyString)).1 =
    [ EvRemote (CmdListContainers true "'{{.ID}}'" true
                  "name=curvebs-format-5bbf5a52328e7439ae6e719dfe712200");
      EvLambda; EvRemote (CmdBlockId "/dev/sdb" "value" "UUID") ] ++ evs.
Proof.
  split; [reflexivity|].
  exact (skipFormat_continues_on_empty curveadm fc task
           (ctx_with good_uuid EmptyString) eq_refl eq_refl).
Defined.

(** X6 at the demo host: the previous UUID of the builder is kept and the
    probed UUID is stored. *)
Lemma previous_uuid_is_kept :
  let before := validated odd_uuid "0a1b2c3d-0000-4000-8000-000000000000"
                  (host_with good_uuid EmptyString) in
  let after := (Execute edit before).1 in
  Ref_oldUUID ∈
    [Ref_oldContainerId; Ref_containerId; Ref_oldUUID; Ref_formatScript] /\
  load Ref_oldUUID (vars after) = "0a1b2c3d-0000-4000-8000-000000000000" /\
  load Ref_uuid (vars after) = good_uuid.
Proof.
  intros before after.
  assert (Hin : Ref_oldUUID ∈
    [Ref_oldContainerId; Ref_containerId; Ref_oldUUID; Ref_formatScript]).
  { do 2 apply list_elem_of_further. apply list_elem_of_here. }
  split; [exact Hin|].
  destruct (step2EditFSTab_Execute_frame edit before Ref_oldUUID Hin)
    as (Hr & _ & Hu).
  split; [exact Hr|exact Hu].
Defined.

(** X9 at the demo host: the record of [good_uuid] is inserted, and an edit
    that only deletes, with the new UUID as the previous one, removes it. *)
Lemma inserted_record_is_removed :
  let s' := mkStep2EditFSTab "node1" "/dev/sdb" "/data/chunkserver0"
              Ref_uuid true in
  let c := validated good_uuid EmptyString (host_with good_uuid EmptyString) in
  let inserted := (run_steps (drop 3 (step2EditFSTab_steps edit c)) c).1 in
  let removed :=
    (run_steps (drop 3 (step2EditFSTab_steps s' inserted)) inserted).1 in
  (0 < len good_uuid)%nat /\
  FsHost.all_chars FsHost.literal_char good_uuid = true /\
  FsHost.all_chars FsHost.text_char (mountPoint edit) = true /\
  fstab <> [] /\
  Forall (fun l => Contains l ("UUID=" +:+ good_uuid) = false) fstab /\
  FsHost.files (remote removed) !! "/etc/fstab" = Some fstab.
Proof.
  intros s' c inserted removed.
  assert (Hn : (0 < len good_uuid)%nat) by (vm_compute; lia).
  assert (Hne : fstab <> []) by discriminate.
  assert (Hall : Forall (fun l => Contains l ("UUID=" +:+ good_uuid) = false)
                   fstab).
  { apply Forall_cons. split; [reflexivity|]. by apply Forall_nil. }
  split; [exact Hn|]. split; [reflexivity|]. split; [reflexivity|].
  split; [exact Hne|]. split; [exact Hall|].
  exact (proj2 (step2EditFSTab_delete_undoes_insert edit s' c good_uuid fstab
                  eq_refl eq_refl eq_refl Hn eq_refl eq_refl eq_refl eq_refl
                  eq_refl Hne Hall)).
Defined.

(** X10 at the demo host: the record of the previous UUID gives way to the
    record of the new one. *)
Lemma previous_record_is_replaced :
  let previous := "0a1b2c3d-0000-4000-8000-000000000000" in
  let old_record :=
    "UUID=0a1b2c3d-0000-4000-8000-000000000000  /data/chunkserver0  ext4  rw,errors=remount-ro  0  0  # GENERATED BY CURVEADM, DONT EDIT THIS" in
  let new_record :=
    "UUID=82511eb8-e4e3-4a50-a736-d584fbf533fa  /data/chunkserver0  ext4  rw,errors=remount-ro  0  0  # GENERATED BY CURVEADM, DONT EDIT THIS" in
  let h := FsHost.mk {[ "/etc/fstab" := fstab ++ [old_record] ]}
             (fun _ => mkReply None None)
             (fun _ _ _ m => (m, mkReply None (Some FsHost.failed))) in
  (0 < len previous)%nat /\
  FsHost.all_chars FsHost.literal_char previous = true /\
  FsHost.all_chars FsHost.literal_char good_uuid = true /\
  FsHost.all_chars FsHost.text_char (mountPoint edit) = true /\
  (exists l, l ∈ fstab ++ [old_record] /\
     Contains l ("UUID=" +:+ previous) = false) /\
  FsHost.files (remote (editing (validated good_uuid previous h)).1)
    !! "/etc/fstab" = Some (fstab ++ [new_record]).
Proof.
  intros previous old_record new_record h.
  assert (Hl : exists l, l ∈ fstab ++ [old_record] /\
                 Contains l ("UUID=" +:+ previous) = false).
  { exists "/dev/sda1  /  ext4  defaults  0  1". split; [|reflexivity].
    apply list_elem_of_here. }
  assert (Hn : (0 < len previous)%nat) by (vm_compute; lia).
  split; [exact Hn|]. split; [reflexivity|]. split; [reflexivity|].
  split; [reflexivity|]. split; [exact Hl|].
  pose proof (step2EditFSTab_replaces_record edit
                (validated good_uuid previous h) previous good_uuid
                (fstab ++ [old_record]) eq_refl eq_refl Hn eq_refl eq_refl
                eq_refl eq_refl eq_refl Hl)
    as (_ & Hfile & _).
  exact Hfile.
Defined.

(** X11 at a host where the targets 1, 2 and 4 are bound: without the create
    flag the script registers the target 3 and never creates a volume. *)
Lemma target_without_volume :
  TargetScript.single_word "false" = true /\
  "false" <> "true" /\
  (forall i, TargetScript.tgtadm_show (tools EmptyString 0) i = 0
             <-> i ∈ ({[1; 2; 4]} : gset nat)) /\
  size ({[1; 2; 4]} : gset nat) < 4 /\
  exists tid calls,
    TargetScript.TARGET (tools EmptyString 0) 4 "curve" "test" "false" "10"
      = Some (calls, TargetScript.Registered tid) /\
    (tid ∉ ({[1; 2; 4]} : gset nat)).
Proof.
  assert (Hflag : "false" <> "true") by discriminate.
  assert (Hshow : forall i, TargetScript.tgtadm_show (tools EmptyString 0) i
                    = 0 <-> i ∈ ({[1; 2; 4]} : gset nat)).
  { intros i. cbn. case_bool_decide; split; done. }
  assert (Hfuel : size ({[1; 2; 4]} : gset nat) < 4) by (vm_compute; lia).
  split; [reflexivity|].
  split; [exact Hflag|]. split; [exact Hshow|]. split; [exact Hfuel|].
  destruct (TARGET_without_create (tools EmptyString 0) "curve" "test"
              "false" "10" {[1; 2; 4]} 4 eq_refl Hflag Hshow Hfuel)
    as (tid & Hrun & _ & Hnot & _).
  exists tid. eexists. split; [exact Hrun|exact Hnot].
Defined.

(** X12 at a create command that fails and prints the tolerated message and
    two line feeds. *)
Lemma two_line_feeds_are_tolerated :
  let t := tools (TargetScript.TOLERATED +:+ newlines 2) 1 in
  (TargetScript.curve_ops_tool t "curve" "test" "10").2 <> 0 /\
  exists n,
    TargetScript.remove_nul
      (TargetScript.curve_ops_tool t "curve" "test" "10").1
    = TargetScript.TOLERATED +:+ newlines n.
Proof.
  intros t.
  assert (Hst : (TargetScript.curve_ops_tool t "curve" "test" "10").2 <> 0)
    by discriminate.
  split; [exact Hst|].
  apply (proj1 (TARGET_tolerates_trailing_newlines t 4 "curve" "test" "10"
                  Hst)).
  reflexivity.
Defined.

(** X13 at a host where the targets 1, 2 and 4 are bound and the volume
    exists: the first run registers the target 3; with that target bound and
    the create command failing with the tolerated message, the second run
    registers a target of the same name again. *)
Lemma second_run_registers_again :
  let t := tools (TargetScript.TOLERATED +:+ newlines 1) 1 in
  let t' := TargetScript.mkTools
              (fun _ _ _ => (TargetScript.TOLERATED +:+ newlines 1, 1))
              (fun i => if bool_decide (i ∈ ({[1; 2; 4]} ∪ {[3]} : gset nat))
                        then 0 else 1)
              (fun _ => "0cc175b9c0f1b6a831c399e269772661") "2022-02"
              (fun _ => 2) in
  let name := "iqn.2022-02.com.opencurve:curve.0cc175b9c0f1b6a831c399e269772661" in
  (forall i, TargetScript.tgtadm_show t i = 0
             <-> i ∈ ({[1; 2; 4]} : gset nat)) /\
  (forall i, TargetScript.tgtadm_show t' i = 0
             <-> i ∈ ({[1; 2; 4]} ∪ {[3]} : gset nat)) /\
  size ({[1; 2; 4]} : gset nat) + 1 < 5 /\
  (exists calls, TargetScript.TARGET t 4 "curve" "test" "true" "10"
                 = Some (calls, TargetScript.Registered 3) /\
                 TargetScript.tgtadm_target_new 3 name ∈ calls) /\
  (exists calls' tid',
     TargetScript.TARGET t' 5 "curve" "test" "true" "10"
       = Some (calls', TargetScript.Registered tid') /\
     3 < tid' /\
     TargetScript.tgtadm_target_new tid' name ∈ calls').
Proof.
  intros t t' name.
  assert (Hshow : forall i, TargetScript.tgtadm_show t i = 0
                    <-> i ∈ ({[1; 2; 4]} : gset nat)).
  { intros i. cbn. case_bool_decide; split; done. }
  assert (Hshow' : forall i, TargetScript.tgtadm_show t' i = 0
                     <-> i ∈ ({[1; 2; 4]} ∪ {[3]} : gset nat)).
  { intros i. cbn. case_bool_decide; split; done. }
  assert (Hfuel : size ({[1; 2; 4]} : gset nat) + 1 < 5)
    by (vm_compute; lia).
  split; [exact Hshow|]. split; [exact Hshow'|]. split; [exact Hfuel|].
  destruct (TARGET_twice t t' 4 5 "curve" "test" "true" "10" {[1; 2; 4]}
              _ 3 Hshow Hshow' eq_refl eq_refl eq_refl
              (fun _ => or_intror eq_refl) Hfuel)
    as (calls' & tid' & Hrun' & Hlt & Hnew & Hnew' & _).
  split.
  - eexists. split; [reflexivity|exact Hnew].
  - exists calls', tid'. split; [exact Hrun'|]. split; [exact Hlt|exact Hnew'].
Defined.

End MoreExamples.
